(** * AES67 sender (ptp-sender.py): stream partitioning and pipeline lifecycle

    A shallow embedding of [GstreamerPtpSender] from [src/ptp-sender.py].

    - Python integers are [Z]; [//] is floor division ([Z.div]), with the
      [ZeroDivisionError] of a zero divisor written out.  Memory is
      unbounded: a list of any length can be built.
    - Python strings are [string], read as ASCII text (characters below
      128); [str.split], [str.join], [int] and [str] are modelled below.
      [int] and [str] convert numbers of any length, as an interpreter
      does that has no limit on the digits of a conversion or has it set
      to 0 ([sys.set_int_max_str_digits]), and as every interpreter does
      for numbers of at most 640 digits; statements that need a
      conversion to succeed keep the numbers below that length.
    - The configuration is the dictionary returned by [json.load], here
      with integers and strings for values (the kinds its keys have in the
      data model): a [gmap string value]; subscripting a missing key raises
      [KeyError].
    - Exceptions are an explicit result type; [sys.exit n] raises
      [SystemExit n] as in Python.
    - Calls into GStreamer, GstNet, GLib and [signal] are recorded in a
      trace of [call]s; what they answer is read from an environment
      record.  Console output ([print]) is not part of the trace. *)

From Stdlib Require Import ZArith Ascii String DecimalString DecimalZ.
From stdpp Require Import base option list gmap strings fin_maps.

Local Open Scope Z_scope.

(** ** Python values and exceptions *)

(** The JSON values the configuration holds: integers and strings (the
    kinds the configuration keys have).  Configurations with floats,
    booleans, null, lists or objects for values are not covered. *)
Inductive value :=
| VInt (z : Z)
| VStr (s : string).

#[global] Instance value_eq_dec : EqDecision value.
Proof. solve_decision. Defined.

Inductive exn :=
| KeyError (k : string)
| TypeError
| AttributeError
| IndexError
| ValueError
| ZeroDivisionError
| RuntimeError
| SystemExit (code : Z).

#[global] Instance exn_eq_dec : EqDecision exn.
Proof. solve_decision. Defined.

Inductive result (A : Type) :=
| Ok (a : A)
| Raise (e : exn).
Arguments Ok {A} a.
Arguments Raise {A} e.

#[global] Instance result_ret : MRet result := λ A a, Ok a.
#[global] Instance result_bind : MBind result := λ A B k r,
  match r with
  | Ok a => k a
  | Raise e => Raise e
  end.

(** [for x in xs: ys.append(f(x))] where [f] may raise. *)
Fixpoint for_each {A B} (f : A → result B) (xs : list A) : result (list B) :=
  match xs with
  | [] => Ok []
  | x :: xs' => y ← f x; ys ← for_each f xs'; Ok (y :: ys)
  end.

(** [l[i]] for a Python list, negative indices counting from the end. *)
Definition subscript_list {A} (l : list A) (i : Z) : result A :=
  let n := Z.of_nat (length l) in
  let j := if i <? 0 then i + n else i in
  if (0 <=? j) && (j <? n) then
    match l !! Z.to_nat j with
    | Some a => Ok a
    | None => Raise IndexError
    end
  else Raise IndexError.

(** [d[k]] for a dictionary. *)
Definition subscript (d : gmap string value) (k : string) : result value :=
  match d !! k with
  | Some v => Ok v
  | None => Raise (KeyError k)
  end.

(** [range(n)]. *)
Definition range (n : Z) : list Z := seqZ 0 n.

(** ** String primitives *)

Module PyStr.

Definition dot : ascii := "."%char.

(** [s.split(sep)] for a one-character separator. *)
Fixpoint split (sep : ascii) (s : string) : list string :=
  match s with
  | EmptyString => [EmptyString]
  | String c s' =>
      if Ascii.eqb c sep then EmptyString :: split sep s'
      else match split sep s' with
           | [] => [String c EmptyString]
           | p :: ps => String c p :: ps
           end
  end.

(** [sep.join(parts)]. *)
Fixpoint join (sep : string) (parts : list string) : string :=
  match parts with
  | [] => EmptyString
  | p :: ps =>
      match ps with
      | [] => p
      | _ :: _ => String.append p (String.append sep (join sep ps))
      end
  end.

(** Characters [int] skips at both ends of an ASCII string: tab, line
    feed, vertical tab, form feed, carriage return and space. *)
Definition is_space (c : ascii) : bool :=
  let n := nat_of_ascii c in
  ((9 <=? n) && (n <=? 13) || (n =? 32))%nat.

Fixpoint lstrip (s : string) : string :=
  match s with
  | EmptyString => EmptyString
  | String c s' => if is_space c then lstrip s' else s
  end.

Fixpoint rstrip (s : string) : string :=
  match s with
  | EmptyString => EmptyString
  | String c s' =>
      match rstrip s' with
      | EmptyString => if is_space c then EmptyString else String c EmptyString
      | r => String c r
      end
  end.

Definition strip (s : string) : string := rstrip (lstrip s).

Definition digit (c : ascii) : option (Decimal.uint → Decimal.uint) :=
  match c with
  | "0"%char => Some Decimal.D0
  | "1"%char => Some Decimal.D1
  | "2"%char => Some Decimal.D2
  | "3"%char => Some Decimal.D3
  | "4"%char => Some Decimal.D4
  | "5"%char => Some Decimal.D5
  | "6"%char => Some Decimal.D6
  | "7"%char => Some Decimal.D7
  | "8"%char => Some Decimal.D8
  | "9"%char => Some Decimal.D9
  | _ => None
  end.

(** The digits of a decimal literal; one underscore may separate two
    digits.  [after_digit] tells whether the previous character was a
    digit. *)
Fixpoint digits (after_digit : bool) (s : string) : option Decimal.uint :=
  match s with
  | EmptyString => if after_digit then Some Decimal.Nil else None
  | String c s' =>
      if Ascii.eqb c "_" then
        if after_digit then digits false s' else None
      else
        match digit c with
        | Some d => d <$> digits true s'
        | None => None
        end
  end.

Definition signed (s : string) : option Decimal.int :=
  match s with
  | String "-" s' => Decimal.Neg <$> digits false s'
  | String "+" s' => Decimal.Pos <$> digits false s'
  | _ => Decimal.Pos <$> digits false s
  end.

(** [int(s)] for an ASCII string: blanks skipped at both ends, an optional
    sign, decimal digits with single underscores between them; [None]
    stands for [ValueError].  Integers are unbounded, and numerals of any
    length are read (see [short_numbers] below for the limit of CPython
    3.11 and later). *)
Definition to_int (s : string) : option Z :=
  Z.of_int <$> signed (strip s).

(** [str(z)], numbers of any length being written. *)
Definition of_int (z : Z) : string :=
  NilZero.string_of_int (Z.to_int z).

(** Every character of [s] satisfies [P]. *)
Fixpoint all_chars (P : ascii → bool) (s : string) : bool :=
  match s with
  | EmptyString => true
  | String c s' => P c && all_chars P s'
  end.

(** The characters [str] of an integer is made of. *)
Definition is_numeric (c : ascii) : bool :=
  match digit c with
  | Some _ => true
  | None => Ascii.eqb c "-"
  end.

(** ASCII text: every character is below 128. *)
Definition is_ascii (s : string) : bool :=
  all_chars (λ c, (nat_of_ascii c <? 128)%nat) s.

End PyStr.

(** [str(v)], as an f-string formats a value. *)
Definition str (v : value) : string :=
  match v with
  | VInt z => PyStr.of_int z
  | VStr s => s
  end.

(** ** The sender object *)

(** Handles of the objects GStreamer gives out. *)
Definition pipeline := nat.
Definition clock := nat.

#[global] Instance pipeline_eq_dec : EqDecision pipeline := Nat.eq_dec.
#[global] Instance clock_eq_dec : EqDecision clock := Nat.eq_dec.

(** One entry of the list [calculate_streams] returns (a dictionary with
    these five keys in the source). *)
Record stream := {
  stream_index : Z;
  stream_multicast : string;
  stream_port : Z;
  stream_channels : Z;
  stream_start_channel : Z
}.

#[global] Instance stream_eq_dec : EqDecision stream.
Proof. solve_decision. Defined.

(** [GLib.MainLoop]: whether it is running. *)
Record mainloop := { is_running : bool }.

Record sender := {
  config_path : string;
  verbose : bool;
  pipelines : list pipeline;
  main_loop : option mainloop;
  ptp_clock : option clock;
  config : gmap string value
}.

Definition set_pipelines (ps : list pipeline) (self : sender) : sender :=
  {| config_path := config_path self; verbose := verbose self; pipelines := ps;
     main_loop := main_loop self; ptp_clock := ptp_clock self; config := config self |}.

Definition set_main_loop (ml : option mainloop) (self : sender) : sender :=
  {| config_path := config_path self; verbose := verbose self; pipelines := pipelines self;
     main_loop := ml; ptp_clock := ptp_clock self; config := config self |}.

Definition set_ptp_clock (c : option clock) (self : sender) : sender :=
  {| config_path := config_path self; verbose := verbose self; pipelines := pipelines self;
     main_loop := main_loop self; ptp_clock := c; config := config self |}.

(** ** calculate_streams (lines 103-131) *)

(** The body of the loop at lines 113-129 for index [i]; [channel_count]
    and [channels_per_receiver] are integers once line 110 has passed. *)
Definition stream_at (channel_count channels_per_receiver : Z)
    (base_multicast base_port : value) (i : Z) : result stream :=
  let start_channel := i * channels_per_receiver in
  let end_channel := Z.min (start_channel + channels_per_receiver) channel_count in
  let stream_channels := end_channel - start_channel in
  addr_parts ← match base_multicast with
               | VStr s => Ok (PyStr.split PyStr.dot s)
               | VInt _ => Raise AttributeError
               end;
  last_part ← subscript_list addr_parts 3;
  last_octet ← match PyStr.to_int last_part with
               | Some n => Ok n
               | None => Raise ValueError
               end;
  let addr_parts := <[3%nat := PyStr.of_int (last_octet + i)]> addr_parts in
  let stream_address := PyStr.join "." addr_parts in
  port ← match base_port with
         | VInt p => Ok (p + i)
         | VStr _ => Raise TypeError
         end;
  Ok {| stream_index := i;
        stream_multicast := stream_address;
        stream_port := port;
        stream_channels := stream_channels;
        stream_start_channel := start_channel + 1 |}.

Definition calculate_streams (self : sender) : result (list stream) :=
  channel_count ← subscript (config self) "channelCount";
  channels_per_receiver ← subscript (config self) "channelsPerReceiver";
  base_multicast ← subscript (config self) "baseMulticastAddress";
  base_port ← subscript (config self) "rtpDestinationPort";
  match channel_count, channels_per_receiver with
  | VInt cc, VInt cpr =>
      if cpr =? 0 then Raise ZeroDivisionError
      else
        let num_streams := (cc + cpr - 1) `div` cpr in
        for_each (stream_at cc cpr base_multicast base_port) (range num_streams)
  | _, _ =>
      (* line 110 with a string operand: str + int, int + str or str - int *)
      Raise TypeError
  end.

(** ** The outside world *)

Inductive gst_state := NULL | PLAYING.

Inductive state_change_return := FAILURE | SUCCESS | ASYNC | NO_PREROLL.

Inductive signum := SIGINT | SIGTERM.

#[global] Instance gst_state_eq_dec : EqDecision gst_state.
Proof. solve_decision. Defined.
#[global] Instance state_change_return_eq_dec : EqDecision state_change_return.
Proof. solve_decision. Defined.
#[global] Instance signum_eq_dec : EqDecision signum.
Proof. solve_decision. Defined.

(** The calls the sender makes into GStreamer, GstNet, GLib and [signal],
    with the arguments that matter. *)
Inductive call :=
| GstInit
| PtpInit
| PtpClockNew (domain : value)
| ClockConnectSynced (c : clock)
| ClockWaitForSync (c : clock)
| ParseLaunch (description : string)
| UseClock (p : pipeline) (c : option clock)
| SetStartTime (p : pipeline)
| ClockGetTime (c : clock)
| SetBaseTime (p : pipeline)
| BusConnect (p : pipeline) (stream_index : Z)
| SetState (p : pipeline) (st : gst_state)
| MainLoopNew
| SignalInstall (sig : signum)
| MainLoopRun
| MainLoopIsRunning
| MainLoopQuit
| PtpDeinit.

#[global] Instance call_eq_dec : EqDecision call.
Proof. solve_decision. Defined.

(** What [open] and [json.load] give for a path. *)
Inductive file_content :=
| FileNotFound
| InvalidJson
| JsonObject (d : gmap string value)
| JsonOther.

(** The type of a bus message (the payload is only printed). *)
Inductive message :=
| ERROR
| EOS
| WARNING
| STATE_CHANGED (src : pipeline)
| OTHER.

(** What reaches the process while [main_loop.run()] is waiting: a signal
    with a handler installed at lines 232-233, a message on the bus of the
    pipeline of a stream, or a [KeyboardInterrupt] out of [run].

    Bus messages are dispatched by the main loop, one at a time.  A signal
    is not: Python runs its handler before the next instruction of
    whatever frame is running, also in the middle of [stop].
    [Interrupted t after sig] is the trigger [t] together with a signal
    [sig] that arrives when the handling of [t] has made [after] calls (if
    it makes that many). *)
Inductive trigger :=
| Signal (sig : signum)
| BusMessage (stream_index : Z) (m : message)
| KeyboardInterrupt
| Interrupted (t : trigger) (after : nat) (sig : signum).

Record env := {
  read_config : string → file_content;
  ptp_init : bool;
  ptp_clock_new : value → option clock;
  wait_for_sync : bool;
  parse_launch : string → option pipeline;
  set_state_playing : pipeline → state_change_return;
  triggers : list trigger
}.

Definition with_wait_for_sync (b : bool) (E : env) : env :=
  {| read_config := read_config E; ptp_init := ptp_init E;
     ptp_clock_new := ptp_clock_new E; wait_for_sync := b;
     parse_launch := parse_launch E; set_state_playing := set_state_playing E;
     triggers := triggers E |}.

(** ** Methods: state of [self], trace of calls, outcome *)

(** A method either returns (a value or an exception) or is still waiting
    in the run loop, every trigger of the environment handled. *)
Inductive outcome (A : Type) :=
| Returns (r : result A)
| Waits.
Arguments Returns {A} r.
Arguments Waits {A}.

Definition M (A : Type) : Type := sender → outcome A * sender * list call.

#[global] Instance M_ret : MRet M := λ A a self, (Returns (Ok a), self, []).
#[global] Instance M_bind : MBind M := λ A B k m self,
  match m self with
  | (Returns (Ok a), self', t) =>
      let '(o, self'', t') := k a self' in (o, self'', t ++ t')
  | (Returns (Raise e), self', t) => (Returns (Raise e), self', t)
  | (Waits, self', t) => (Waits, self', t)
  end.

Definition get : M sender := λ self, (Returns (Ok self), self, []).
Definition modify (f : sender → sender) : M unit := λ self, (Returns (Ok tt), f self, []).
Definition emit (c : call) : M unit := λ self, (Returns (Ok tt), self, [c]).
Definition raise {A} (e : exn) : M A := λ self, (Returns (Raise e), self, []).
Definition wait {A} : M A := λ self, (Waits, self, []).
Definition lift {A} (r : result A) : M A := λ self, (Returns r, self, []).

(** [sys.exit(code)]. *)
Definition sys_exit {A} (code : Z) : M A := raise (SystemExit code).

(** [for x in xs: body(x)]. *)
Fixpoint for_ {A} (xs : list A) (body : A → M unit) : M unit :=
  match xs with
  | [] => mret tt
  | x :: xs' => body x ;; for_ xs' body
  end.

Definition quote : string := String (ascii_of_nat 34) EmptyString.

Section Sender.
Context (E : env).

(** load_config (lines 43-58); [ValueError] is not caught by the two
    [except] clauses. *)
Definition load_config (path : string) : result (gmap string value) :=
  match read_config E path with
  | FileNotFound => Raise (SystemExit 1)
  | InvalidJson => Raise (SystemExit 1)
  | JsonOther => Raise AttributeError
  | JsonObject config =>
      if decide (config !! "deviceMode" = Some (VStr "sender")) then Ok config
      else Raise ValueError
  end.

(** __init__ (lines 30-41). *)
Definition init (path : string) (verbose : bool) : result sender * list call :=
  (config ← load_config path;
   Ok {| config_path := path; verbose := verbose; pipelines := [];
         main_loop := None; ptp_clock := None; config := config |},
   [GstInit]).

(** init_ptp_clock (lines 60-94). *)
Definition init_ptp_clock : M bool :=
  self ← get;
  let ptp_domain := default (VInt 0) (config self !! "ptpDomain") in
  emit PtpInit;;
  if negb (ptp_init E) then mret false
  else
    emit (PtpClockNew ptp_domain);;
    modify (set_ptp_clock (ptp_clock_new E ptp_domain));;
    match ptp_clock_new E ptp_domain with
    | None => mret false
    | Some c =>
        emit (ClockConnectSynced c);;
        emit (ClockWaitForSync c);;
        if wait_for_sync E then mret true
        else mret true
    end.

(** The description handed to [Gst.parse_launch] (lines 138-149). *)
Definition pipeline_str (jack_client_name sampling_rate : value) (s : stream) : string :=
  let client_name :=
    str jack_client_name +:+ "_stream" +:+ PyStr.of_int (stream_index s) in
  "jackaudiosrc client-name=" +:+ quote +:+ client_name +:+ quote +:+ " connect=0 ! " +:+
  "audioconvert ! " +:+
  "audioresample ! " +:+
  "audio/x-raw,rate=" +:+ str sampling_rate +:+ ",channels=" +:+
    PyStr.of_int (stream_channels s) +:+ " ! " +:+
  "rtpL24pay pt=96 timestamp-offset=0 ! " +:+
  "udpsink host=" +:+ stream_multicast s +:+ " port=" +:+ PyStr.of_int (stream_port s) +:+ " " +:+
  "auto-multicast=true ttl-mc=32 sync=false async=false".

(** create_pipeline (lines 133-173). *)
Definition create_pipeline (s : stream) : M pipeline :=
  self ← get;
  jack_client_name ← lift (subscript (config self) "jackClientName");
  sampling_rate ← lift (subscript (config self) "samplingRate");
  let description := pipeline_str jack_client_name sampling_rate s in
  emit (ParseLaunch description);;
  match parse_launch E description with
  | None => raise RuntimeError
  | Some p =>
      emit (UseClock p (ptp_clock self));;
      emit (SetStartTime p);;
      match ptp_clock self with
      | None => raise AttributeError
      | Some c =>
          emit (ClockGetTime c);;
          emit (SetBaseTime p);;
          emit (BusConnect p (stream_index s));;
          mret p
      end
  end.

(** stop (lines 240-257). *)
Definition stop : M unit :=
  self ← get;
  for_ (pipelines self) (λ p, emit (SetState p NULL));;
  match main_loop self with
  | Some ml =>
      emit MainLoopIsRunning;;
      if is_running ml then
        emit MainLoopQuit;;
        modify (set_main_loop (Some {| is_running := false |}))
      else mret tt
  | None => mret tt
  end;;
  match ptp_clock self with
  | Some _ => emit PtpDeinit
  | None => mret tt
  end;;
  sys_exit 0.

(** on_bus_message (lines 175-197). *)
Definition on_bus_message (m : message) (stream_index : Z) : M unit :=
  match m with
  | ERROR => stop
  | EOS => stop
  | WARNING => mret tt
  | STATE_CHANGED src =>
      self ← get;
      _ ← lift (subscript_list (pipelines self) stream_index);
      mret tt
  | OTHER => mret tt
  end.

(** The body of the loop at lines 213-221. *)
Definition start_stream (s : stream) : M unit :=
  p ← create_pipeline s;
  modify (λ self, set_pipelines (pipelines self ++ [p]) self);;
  emit (SetState p PLAYING);;
  match set_state_playing E p with
  | FAILURE => sys_exit 1
  | _ => mret tt
  end.

(** The calls [stop] makes on [self] (lines 244-254), each with the sender
    object as it is once the call is made: [main_loop.quit()] is the one
    call that changes it. *)
Definition stop_steps (self : sender) : list (call * sender) :=
  let '(_, self', t) := stop self in
  imap (λ i c, (c, if decide (MainLoopQuit ∈ take (S i) t) then self' else self)) t.

(** The handling of a trigger that ends the process: the sender object on
    which [stop] is first called, and the calls made until the process
    exits, each with the sender object after it.  [None] when the handler
    returns to the run loop.

    The handlers of lines 232-233 call [stop], as lines 184, 187 and 238
    do.  When a signal interrupts a handling after [n] of its calls, what
    was running is left where it is, the handler calls [stop] on the
    sender object as it is then, and the [sys.exit(0)] that ends this new
    [stop] unwinds the interrupted frames with it. *)
Fixpoint handle (t : trigger) (self : sender) : option (sender * list (call * sender)) :=
  match t with
  | Signal _ => Some (self, stop_steps self)
  | BusMessage _ (ERROR | EOS) => Some (self, stop_steps self)
  | BusMessage _ _ => None
  | KeyboardInterrupt =>
      let self' := set_main_loop (Some {| is_running := false |}) self in
      Some (self', stop_steps self')
  | Interrupted t n _ =>
      match handle t self with
      | None =>
          match n with
          | O => Some (self, stop_steps self)
          | S _ => None
          end
      | Some (self0, steps) =>
          if decide (n ≤ length steps)%nat then
            let self_n := default self0 (snd <$> last (take n steps)) in
            Some (self0, take n steps ++ stop_steps self_n)
          else Some (self0, steps)
      end
  end.

(** [main_loop.run()] under the [try] of lines 235-238.  Bus messages are
    handled one at a time, each handler running to its end; an exception
    out of a signal handler leaves [run]; out of a bus callback,
    [SystemExit] ends the process and any other exception is reported and
    dropped.  A handling that a signal interrupts is that of [handle]. *)
Fixpoint run (ts : list trigger) : M unit :=
  match ts with
  | [] => wait
  | Signal _ :: _ => stop
  | KeyboardInterrupt :: _ =>
      modify (set_main_loop (Some {| is_running := false |}));;
      stop
  | BusMessage stream_index m :: ts' =>
      λ self,
        match on_bus_message m stream_index self with
        | (Returns (Raise (SystemExit code)), self', t) =>
            (Returns (Raise (SystemExit code)), self', t)
        | (Waits, self', t) => (Waits, self', t)
        | (Returns _, self', t) =>
            let '(o, self'', t') := run ts' self' in (o, self'', t ++ t')
        end
  | Interrupted t n sig :: ts' =>
      λ self,
        match handle (Interrupted t n sig) self with
        | Some (self0, steps) =>
            (Returns (Raise (SystemExit 0)),
             default self0 (snd <$> last steps), fst <$> steps)
        | None => run ts' self
        end
  end.

(** start (lines 199-238). *)
Definition start : M unit :=
  ok ← init_ptp_clock;
  if negb ok then sys_exit 1
  else
    self ← get;
    streams ← lift (calculate_streams self);
    for_ streams start_stream;;
    (* line 224: the client name is read again for the message *)
    _ ← lift (subscript (config self) "jackClientName");
    emit MainLoopNew;;
    modify (set_main_loop (Some {| is_running := false |}));;
    emit (SignalInstall SIGINT);;
    emit (SignalInstall SIGTERM);;
    emit MainLoopRun;;
    modify (set_main_loop (Some {| is_running := true |}));;
    run (triggers E).

(** The exit status of the process, if it has ended: an uncaught
    exception other than [SystemExit] ends it with status 1. *)
Definition exit_status {A} (o : outcome A) : option Z :=
  match o with
  | Returns (Ok _) => Some 0
  | Returns (Raise (SystemExit code)) => Some code
  | Returns (Raise _) => Some 1
  | Waits => None
  end.

(** main from line 277 on: [path] and [verbose] are [args.config] and
    [args.verbose], the values [parse_args] has returned at line 275.  A
    command line that [argparse] refuses (exit status 2) or that asks for
    help (exit status 0) ends the process at line 275 and is no run of
    this function. *)
Definition main (path : string) (verbose : bool) : option Z * list call :=
  match init path verbose with
  | (Ok sender, t) =>
      let '(o, _, t') := start sender in (exit_status o, t ++ t')
  | (Raise e, t) => (exit_status (Returns (Raise e) : outcome unit), t)
  end.

End Sender.

(** ** Vocabulary of the statements *)

(** The channels a stream carries, numbered from 1 as [start_channel] is. *)
Definition channel_range (s : stream) : list Z :=
  seqZ (stream_start_channel s) (stream_channels s).

(** The stream [calculate_streams] builds at index [i] when the fourth
    component of the base address reads as [octet]. *)
Definition stream_for (cc cpr : Z) (base : string) (octet port : Z) (i : Z) : stream :=
  {| stream_index := i;
     stream_multicast :=
       PyStr.join "." (<[3%nat := PyStr.of_int (octet + i)]> (PyStr.split PyStr.dot base));
     stream_port := port + i;
     stream_channels := Z.min (i * cpr + cpr) cc - i * cpr;
     stream_start_channel := i * cpr + 1 |}.

(** A sender object around a configuration, as __init__ leaves it. *)
Definition sender_of (config : gmap string value) : sender :=
  {| config_path := "aes67-config.json"; verbose := false; pipelines := [];
     main_loop := None; ptp_clock := None; config := config |}.

(** A sender configuration with the keys the script reads. *)
Definition sample_config (cc cpr : Z) (address : string) (port : Z) : gmap string value :=
  <["deviceMode" := VStr "sender"]>
  (<["jackClientName" := VStr "aes67"]>
  (<["samplingRate" := VInt 48000]>
  (<["channelCount" := VInt cc]>
  (<["channelsPerReceiver" := VInt cpr]>
  (<["baseMulticastAddress" := VStr address]>
  (<["rtpDestinationPort" := VInt port]> ∅)))))).

(** The integer the fourth component of a dotted address reads as: the
    component line 120 rewrites, the last one of a dotted quad. *)
Definition last_octet (address : string) : option Z :=
  part ← PyStr.split PyStr.dot address !! 3%nat; PyStr.to_int part.

(** A second sender object: the same four partition keys as
    [sender_of (sample_config 16 8 "239.1.1.0" 5004)], everything else
    different. *)
Definition other_sender : sender :=
  {| config_path := "other.json"; verbose := true; pipelines := [4%nat; 2%nat];
     main_loop := Some {| is_running := true |}; ptp_clock := Some 1%nat;
     config :=
       <["ptpDomain" := VInt 3]>
       (<["jackClientName" := VStr "studio"]>
       (<["samplingRate" := VInt 96000]>
       (<["channelCount" := VInt 16]>
       (<["channelsPerReceiver" := VInt 8]>
       (<["baseMulticastAddress" := VStr "239.1.1.0"]>
       (<["rtpDestinationPort" := VInt 5004]> ∅)))))) |}.

(** The calls of the stop sequence (lines 244-254). *)
Definition is_stop_call (c : call) : bool :=
  match c with
  | SetState _ NULL | MainLoopQuit | PtpDeinit => true
  | _ => false
  end.

(** The calls one run of [stop] makes on [self], in order. *)
Definition stop_trace (self : sender) : list call :=
  ((λ p, SetState p NULL) <$> pipelines self) ++
  match main_loop self with
  | Some ml => MainLoopIsRunning :: (if is_running ml then [MainLoopQuit] else [])
  | None => []
  end ++
  match ptp_clock self with
  | Some _ => [PtpDeinit]
  | None => []
  end.

(** The sender object one run of [stop] leaves. *)
Definition stop_state (self : sender) : sender :=
  match main_loop self with
  | Some ml =>
      if is_running ml then set_main_loop (Some {| is_running := false |}) self
      else self
  | None => self
  end.

(** The calls that start or stop a pipeline, quit the main loop, or take or
    release the PTP subsystem. *)
Definition is_lifecycle (c : call) : bool :=
  match c with
  | SetState _ _ | PtpInit | PtpDeinit | MainLoopQuit => true
  | _ => false
  end.

(** The lifecycle calls of a trace, in order. *)
Definition lifecycle (t : list call) : list call :=
  filter (λ c, is_lifecycle c) t.

(** The calls that start the pipelines [ps], in order. *)
Definition started (ps : list pipeline) : list call :=
  (λ p, SetState p PLAYING) <$> ps.

(** A pipeline whose [set_state(PLAYING)] fails was started in [t]. *)
Definition start_failed (E : env) (t : list call) : Prop :=
  ∃ p, SetState p PLAYING ∈ t ∧ set_state_playing E p = FAILURE.

(** An environment for the examples: one configuration file, a clock, a
    pipeline handle per stream (the digit that ends the client name in the
    description), [set_state] failing for the handles of [failing]. *)
Definition sample_env (content : file_content) (synced : bool)
    (failing : list pipeline) (ts : list trigger) : env :=
  {| read_config := λ _, content;
     ptp_init := true;
     ptp_clock_new := λ _, Some 7%nat;
     wait_for_sync := synced;
     parse_launch := λ description,
       match String.get 38 description with
       | Some c => Some (nat_of_ascii c - 48)%nat
       | None => None
       end;
     set_state_playing := λ p, if decide (p ∈ failing) then FAILURE else ASYNC;
     triggers := ts |}.

(** The sender object while two pipelines run. *)
Definition running_sender : sender :=
  {| config_path := "aes67-config.json"; verbose := false;
     pipelines := [0%nat; 1%nat];
     main_loop := Some {| is_running := true |}; ptp_clock := Some 7%nat;
     config := sample_config 16 8 "239.1.1.0" 5004 |}.

(** The sample configuration for a device that is not a sender. *)
Definition receiver_config : gmap string value :=
  <["deviceMode" := VStr "receiver"]> (sample_config 16 8 "239.1.1.0" 5004).

(** The calls that stop the pipelines [ps], in order. *)
Definition stopped (ps : list pipeline) : list call :=
  (λ p, SetState p NULL) <$> ps.

(** The calls of [init_ptp_clock] when the PTP subsystem and the clock
    [c] are there (lines 68-88). *)
Definition ptp_calls (domain : value) (c : clock) : list call :=
  [PtpInit; PtpClockNew domain; ClockConnectSynced c; ClockWaitForSync c].

(** The calls of one turn of the loop at lines 213-221 that builds the
    pipeline [p] of the stream [s] on the clock [c] and starts it. *)
Definition start_calls (c : clock) (jack_client_name sampling_rate : value)
    (s : stream) (p : pipeline) : list call :=
  [ParseLaunch (pipeline_str jack_client_name sampling_rate s);
   UseClock p (Some c); SetStartTime p; ClockGetTime c; SetBaseTime p;
   BusConnect p (stream_index s); SetState p PLAYING].

(** The calls of lines 229-236, up to [main_loop.run()]. *)
Definition run_loop_calls : list call :=
  [MainLoopNew; SignalInstall SIGINT; SignalInstall SIGTERM; MainLoopRun].

(** Numbers that [int] and [str] convert whatever limit on digits the
    interpreter sets (CPython 3.11 and later: 4300 digits by default,
    never fewer than 640): no integer of the configuration has more than
    600 digits and no string more than 600 characters, so that every
    number the sender reads, computes or prints has fewer than 640. *)
Definition short_value (v : value) : bool :=
  match v with
  | VInt z => Z.abs z <? 10 ^ 600
  | VStr s => (String.length s <=? 600)%nat
  end.

Definition short_numbers (config : gmap string value) : bool :=
  forallb (λ kv, short_value kv.2) (map_to_list config).

(** The calls a run of [stop] can make on a sender object that holds the
    pipelines [ps]. *)
Definition stop_calls (ps : list pipeline) : list call :=
  stopped ps ++ [MainLoopIsRunning; MainLoopQuit; PtpDeinit].

(** The sender object [self], or [self] once its main loop no longer
    runs: what a handler may find when it starts. *)
Definition akin (self s : sender) : Prop :=
  s = self ∨ s = set_main_loop (Some {| is_running := false |}) self.

(** The triggers that do not stop the sender: bus messages that are
    neither an error nor the end of a stream. *)
Definition benign (t : trigger) : bool :=
  match t with
  | BusMessage _ (WARNING | STATE_CHANGED _ | OTHER) => true
  | _ => false
  end.

(** * Properties *)

(** ** Strings *)

Example split_quad :
  PyStr.split PyStr.dot "239.1.1.0" = ["239"; "1"; "1"; "0"]%string.
Proof. reflexivity. Qed.

Example split_gaps : PyStr.split PyStr.dot "a..b." = ["a"; ""; "b"; ""]%string.
Proof. reflexivity. Qed.

Example join_quad :
  PyStr.join "." ["239"; "1"; "1"; "256"]%string = "239.1.1.256"%string.
Proof. reflexivity. Qed.

Example to_int_samples :
  PyStr.to_int " +1_000 " = Some 1000 ∧ PyStr.to_int "-07" = Some (-7) ∧
  PyStr.to_int "1__0" = None ∧ PyStr.to_int "- 5" = None ∧
  PyStr.to_int "" = None ∧ PyStr.to_int "_5" = None ∧ PyStr.to_int "5_" = None ∧
  PyStr.to_int "abc" = None.
Proof. repeat split; reflexivity. Qed.

(** Blanks at both ends are skipped; the separators 28 to 31, blanks for
    [str.isspace], are not blanks for [int]. *)
Example to_int_blanks :
  PyStr.to_int (String (ascii_of_nat 9) (String (ascii_of_nat 32) "5")) = Some 5 ∧
  PyStr.to_int (String "5" (String (ascii_of_nat 10) (String (ascii_of_nat 13) "")))
  = Some 5 ∧
  PyStr.to_int (String (ascii_of_nat 28) "5") = None ∧
  PyStr.to_int (String (ascii_of_nat 31) "5") = None.
Proof. repeat split; reflexivity. Qed.

Example of_int_samples :
  PyStr.of_int 0 = "0"%string ∧ PyStr.of_int 256 = "256"%string ∧
  PyStr.of_int (-12) = "-12"%string.
Proof. repeat split; reflexivity. Qed.

Section Strings.
Import PyStr.

Lemma numeric_not_space c : is_numeric c = true → is_space c = false.
Proof. destruct c as [[] [] [] [] [] [] [] []]; vm_compute; congruence. Qed.

Lemma numeric_not_dot c : is_numeric c = true → Ascii.eqb c dot = false.
Proof. destruct c as [[] [] [] [] [] [] [] []]; vm_compute; congruence. Qed.

Lemma all_chars_impl (P Q : ascii → bool) s :
  (∀ c, P c = true → Q c = true) → all_chars P s = true → all_chars Q s = true.
Proof.
  intros HPQ. induction s as [|c s IH]; simpl; [done|].
  intros [Hc Hs]%andb_prop. rewrite (HPQ _ Hc), (IH Hs). done.
Qed.

Lemma lstrip_id s : all_chars (λ c, negb (is_space c)) s = true → lstrip s = s.
Proof.
  destruct s as [|c s]; simpl; [done|].
  intros [Hc _]%andb_prop. by destruct (is_space c).
Qed.

Lemma rstrip_id s : all_chars (λ c, negb (is_space c)) s = true → rstrip s = s.
Proof.
  induction s as [|c s IH]; simpl; [done|].
  intros [Hc Hs]%andb_prop. rewrite (IH Hs).
  destruct s; [|done]. by destruct (is_space c).
Qed.

Lemma strip_id s : all_chars (λ c, negb (is_space c)) s = true → strip s = s.
Proof. intros H. unfold strip. rewrite (lstrip_id _ H). by apply rstrip_id. Qed.

Lemma string_of_uint_numeric d : all_chars is_numeric (NilEmpty.string_of_uint d) = true.
Proof. induction d; simpl; auto. Qed.

Lemma digits_string_of_uint d b :
  digits b (NilEmpty.string_of_uint d) =
  match d with
  | Decimal.Nil => if b then Some Decimal.Nil else None
  | _ => Some d
  end.
Proof.
  revert b. induction d as [|d IH|d IH|d IH|d IH|d IH|d IH|d IH|d IH|d IH|d IH];
    intros b; [done|..];
    cbn [NilEmpty.string_of_uint digits digit Ascii.eqb Bool.eqb];
    rewrite (IH true); by destruct d.
Qed.

Lemma of_int_numeric z : all_chars is_numeric (of_int z) = true.
Proof.
  unfold of_int, NilZero.string_of_int, NilZero.string_of_uint.
  destruct (Z.to_int z) as [d|d]; [destruct d|destruct d];
    simpl; rewrite ?string_of_uint_numeric; done.
Qed.

Lemma signed_string_of_uint d :
  d ≠ Decimal.Nil → signed (NilEmpty.string_of_uint d) = Some (Decimal.Pos d).
Proof.
  intros Hd.
  transitivity (Decimal.Pos <$> digits false (NilEmpty.string_of_uint d)).
  - by destruct d.
  - rewrite digits_string_of_uint. by destruct d.
Qed.

Lemma signed_minus_string_of_uint d :
  d ≠ Decimal.Nil →
  signed (String "-" (NilEmpty.string_of_uint d)) = Some (Decimal.Neg d).
Proof.
  intros Hd. unfold signed. rewrite digits_string_of_uint. by destruct d.
Qed.

(** [int(str(z)) == z]. *)
Lemma to_int_of_int z : to_int (of_int z) = Some z.
Proof.
  unfold to_int. rewrite strip_id.
  2:{ eapply all_chars_impl, of_int_numeric.
      intros c Hc. by rewrite (numeric_not_space _ Hc). }
  rewrite <- (DecimalZ.of_to z) at 2. unfold of_int.
  destruct z as [|p|p]; [done|..];
    pose proof (DecimalPos.Unsigned.to_uint_nonnil p) as Hnil;
    cbn [Z.to_int NilZero.string_of_int]; unfold NilZero.string_of_uint.
  - destruct (Pos.to_uint p); [done|..];
      by rewrite signed_string_of_uint.
  - destruct (Pos.to_uint p); [done|..];
      by rewrite signed_minus_string_of_uint.
Qed.

Lemma split_no_sep sep s :
  Forall (λ p, all_chars (λ c, negb (Ascii.eqb c sep)) p = true) (split sep s).
Proof.
  induction s as [|c s IH]; simpl; [by repeat constructor|].
  destruct (Ascii.eqb c sep) eqn:Hc; [by constructor|].
  destruct (split sep s) as [|p ps]; [by repeat constructor; simpl; rewrite Hc|].
  inversion IH as [|? ? Hp Hps]; subst. constructor; [|done].
  simpl. by rewrite Hc, Hp.
Qed.

Lemma split_single sep p :
  all_chars (λ c, negb (Ascii.eqb c sep)) p = true → split sep p = [p].
Proof.
  induction p as [|c p IH]; simpl; [done|].
  intros [Hc Hp]%andb_prop. apply negb_true_iff in Hc. by rewrite Hc, (IH Hp).
Qed.

Lemma split_append sep p rest :
  all_chars (λ c, negb (Ascii.eqb c sep)) p = true →
  split sep (String.append p (String sep rest)) = p :: split sep rest.
Proof.
  induction p as [|c p IH]; simpl.
  - intros _. by rewrite Ascii.eqb_refl.
  - intros [Hc Hp]%andb_prop. apply negb_true_iff in Hc. by rewrite Hc, (IH Hp).
Qed.

(** [sep.join(parts).split(sep) == parts] when no part holds [sep]. *)
Lemma split_join sep parts :
  parts ≠ [] →
  Forall (λ p, all_chars (λ c, negb (Ascii.eqb c sep)) p = true) parts →
  split sep (join (String sep EmptyString) parts) = parts.
Proof.
  intros Hne Hall. induction Hall as [|p ps Hp Hps IH]; [done|].
  destruct ps as [|q ps].
  - by apply split_single.
  - change (join (String sep EmptyString) (p :: q :: ps))
      with (String.append p (String sep (join (String sep EmptyString) (q :: ps)))).
    rewrite (split_append _ _ _ Hp). f_equal. by apply IH.
Qed.

End Strings.

(** ** calculate_streams *)

(** The two scenarios of the specification. *)
Example scenario_16_by_8 :
  calculate_streams (sender_of (sample_config 16 8 "239.1.1.0" 5004))
  = Ok [ {| stream_index := 0; stream_multicast := "239.1.1.0"; stream_port := 5004;
            stream_channels := 8; stream_start_channel := 1 |};
         {| stream_index := 1; stream_multicast := "239.1.1.1"; stream_port := 5005;
            stream_channels := 8; stream_start_channel := 9 |} ].
Proof. vm_compute. reflexivity. Qed.

Example scenario_10_by_4 :
  match calculate_streams (sender_of (sample_config 10 4 "239.1.1.0" 5004)) with
  | Ok streams => Some (map stream_channels streams)
  | Raise _ => None
  end = Some [4; 4; 2].
Proof. vm_compute. reflexivity. Qed.

(** A base address that is not a dotted quad is found out only when a
    stream is built. *)
Example short_address :
  calculate_streams (sender_of (sample_config 16 8 "239.1.1" 5004)) = Raise IndexError ∧
  calculate_streams (sender_of (sample_config 16 8 "239.1.1.x" 5004)) = Raise ValueError ∧
  calculate_streams (sender_of (sample_config 0 8 "239.1.1" 5004)) = Ok [].
Proof. repeat split; vm_compute; reflexivity. Qed.

Lemma for_each_ok {A B} (f : A → result B) (g : A → B) xs :
  (∀ x, x ∈ xs → f x = Ok (g x)) → for_each f xs = Ok (g <$> xs).
Proof.
  induction xs as [|x xs IH]; intros Hf; [done|].
  cbn [for_each]. rewrite (Hf x) by apply list_elem_of_here.
  cbn. rewrite IH; [done|]. intros y Hy. apply Hf. by apply list_elem_of_further.
Qed.

Lemma subscript_list_lookup {A} (l : list A) (i : nat) a :
  l !! i = Some a → subscript_list l (Z.of_nat i) = Ok a.
Proof.
  intros Hi. pose proof (lookup_lt_Some _ _ _ Hi) as Hlt.
  unfold subscript_list.
  destruct (Z.ltb_spec (Z.of_nat i) 0) as [?|_]; [lia|].
  destruct (Z.leb_spec 0 (Z.of_nat i)) as [_|?]; [|lia].
  destruct (Z.ltb_spec (Z.of_nat i) (Z.of_nat (length l))) as [_|?]; [|lia].
  cbn. by rewrite Nat2Z.id, Hi.
Qed.

Lemma stream_at_ok cc cpr base port i part octet :
  PyStr.split PyStr.dot base !! 3%nat = Some part →
  PyStr.to_int part = Some octet →
  stream_at cc cpr (VStr base) (VInt port) i = Ok (stream_for cc cpr base octet port i).
Proof.
  intros Hpart Hoctet.
  pose proof (subscript_list_lookup _ 3 _ Hpart) as Hsub.
  change (Z.of_nat 3) with 3 in Hsub.
  unfold stream_at, mbind, result_bind. by rewrite Hsub, Hoctet.
Qed.

Section Partition.
Context (self : sender) (cc cpr port : Z) (base : string).
Hypothesis Hcc : config self !! "channelCount" = Some (VInt cc).
Hypothesis Hcpr : config self !! "channelsPerReceiver" = Some (VInt cpr).
Hypothesis Hbase : config self !! "baseMulticastAddress" = Some (VStr base).
Hypothesis Hport : config self !! "rtpDestinationPort" = Some (VInt port).

Lemma calculate_streams_unfold :
  calculate_streams self =
  if cpr =? 0 then Raise ZeroDivisionError
  else for_each (stream_at cc cpr (VStr base) (VInt port))
                (range ((cc + cpr - 1) `div` cpr)).
Proof.
  unfold calculate_streams, subscript. by rewrite Hcc, Hcpr, Hbase, Hport.
Qed.

Lemma calculate_streams_ok part octet :
  cpr ≠ 0 →
  PyStr.split PyStr.dot base !! 3%nat = Some part →
  PyStr.to_int part = Some octet →
  calculate_streams self =
  Ok (stream_for cc cpr base octet port <$> range ((cc + cpr - 1) `div` cpr)).
Proof.
  intros Hnz Hpart Hoctet. rewrite calculate_streams_unfold.
  destruct (Z.eqb_spec cpr 0) as [?|_]; [done|].
  apply for_each_ok. intros i _. by eapply stream_at_ok.
Qed.

Lemma calculate_streams_no_stream :
  cpr ≠ 0 → (cc + cpr - 1) `div` cpr ≤ 0 → calculate_streams self = Ok [].
Proof.
  intros Hnz Hn. rewrite calculate_streams_unfold.
  destruct (Z.eqb_spec cpr 0) as [?|_]; [done|].
  unfold range. by rewrite seqZ_nil.
Qed.
End Partition.

Lemma ceiling_bounds cc cpr :
  0 < cpr →
  let n := (cc + cpr - 1) `div` cpr in (n - 1) * cpr < cc ≤ n * cpr.
Proof.
  intros Hcpr n. subst n.
  pose proof (Z.div_mod (cc + cpr - 1) cpr ltac:(lia)) as Hdm.
  pose proof (Z.mod_pos_bound (cc + cpr - 1) cpr Hcpr) as Hb.
  nia.
Qed.

Lemma ranges_cover cc cpr (k : nat) :
  0 < cpr → 0 ≤ cc → (Z.of_nat k - 1) * cpr < cc →
  concat ((λ i, seqZ (i * cpr + 1) (Z.min (i * cpr + cpr) cc - i * cpr))
            <$> seqZ 0 (Z.of_nat k))
  = seqZ 1 (Z.min (Z.of_nat k * cpr) cc).
Proof.
  intros Hcpr Hcc. induction k as [|k IH]; intros Hk.
  - rewrite (seqZ_nil 0), (seqZ_nil 1) by lia. done.
  - rewrite seqZ_S, fmap_app, concat_app, IH by nia.
    cbn [fmap list_fmap concat]. rewrite app_nil_r, Z.add_0_l.
    replace (Z.min (Z.of_nat k * cpr) cc) with (Z.of_nat k * cpr) by nia.
    replace (Z.of_nat k * cpr + 1) with (1 + Z.of_nat k * cpr) by lia.
    rewrite <- seqZ_app by nia. f_equal. nia.
Qed.

Lemma channel_ranges_cover cc cpr base octet port :
  0 < cpr → 0 < cc →
  concat (channel_range <$>
            (stream_for cc cpr base octet port <$> range ((cc + cpr - 1) `div` cpr)))
  = seqZ 1 cc.
Proof.
  intros Hcpr Hcc. pose proof (ceiling_bounds cc cpr Hcpr) as Hn. cbv zeta in Hn.
  unfold range. rewrite <- list_fmap_compose.
  change (channel_range ∘ stream_for cc cpr base octet port)
    with (λ i, seqZ (i * cpr + 1) (Z.min (i * cpr + cpr) cc - i * cpr)).
  rewrite <- (Z2Nat.id ((cc + cpr - 1) `div` cpr)) by nia.
  rewrite ranges_cover by lia. f_equal. lia.
Qed.

(** C1. For [channelCount > 0] and [channelsPerReceiver > 0] (integers,
    with an integer port and a base address whose fourth component [int]
    reads as an integer, no number longer than any limit the interpreter
    sets on conversions), [calculate_streams]
    returns a list whose length [n] is the ceiling of
    [channelCount / channelsPerReceiver], that is
    [(n - 1) * channelsPerReceiver < channelCount <= n * channelsPerReceiver];
    the stream at position [i] has index [i], start channel
    [i * channelsPerReceiver + 1], port [basePort + i] and between 1 and
    [channelsPerReceiver] channels; and the channel ranges, taken in order,
    are exactly the channels [1 .. channelCount]: contiguous, without overlap,
    [channelCount] in all. *)
Theorem calculate_streams_partitions
    (self : sender) (cc cpr port : Z) (base part : string) (octet : Z) :
  config self !! "channelCount" = Some (VInt cc) →
  config self !! "channelsPerReceiver" = Some (VInt cpr) →
  config self !! "baseMulticastAddress" = Some (VStr base) →
  config self !! "rtpDestinationPort" = Some (VInt port) →
  PyStr.split PyStr.dot base !! 3%nat = Some part →
  PyStr.to_int part = Some octet →
  short_numbers (config self) = true →
  0 < cc → 0 < cpr →
  ∃ streams,
    calculate_streams self = Ok streams ∧
    (let n := Z.of_nat (length streams) in (n - 1) * cpr < cc ≤ n * cpr) ∧
    (∀ (i : nat) d, streams !! i = Some d →
       stream_index d = Z.of_nat i ∧
       stream_start_channel d = Z.of_nat i * cpr + 1 ∧
       stream_port d = port + Z.of_nat i ∧
       0 < stream_channels d ≤ cpr) ∧
    concat (channel_range <$> streams) = seqZ 1 cc ∧
    Z.of_nat (length (concat (channel_range <$> streams))) = cc.
Proof.
  intros Hcc Hcpr Hbase Hport Hpart Hoctet _ Hpos Hposr.
  pose proof (ceiling_bounds cc cpr Hposr) as Hn. cbv zeta in Hn.
  set (n := (cc + cpr - 1) `div` cpr) in *.
  assert (0 < n) as Hn0 by nia.
  eexists. split; [|split; [|split; [|split]]].
  - eapply calculate_streams_ok; eauto. lia.
  - cbv zeta. unfold range. rewrite length_fmap, length_seqZ. fold n.
    rewrite Z2Nat.id by lia. done.
  - intros i d Hd. unfold range in Hd. fold n in Hd.
    rewrite list_lookup_fmap in Hd.
    destruct (seqZ 0 n !! i) as [j|] eqn:Hj; [|done].
    apply lookup_seqZ in Hj as [-> Hi]. injection Hd as <-. cbn.
    repeat split; nia.
  - by apply channel_ranges_cover.
  - rewrite channel_ranges_cover, length_seqZ by done. lia.
Qed.

Lemma calculate_streams_partitions_witness :
  ∃ streams,
    calculate_streams (sender_of (sample_config 16 8 "239.1.1.0" 5004)) = Ok streams ∧
    (let n := Z.of_nat (length streams) in (n - 1) * 8 < 16 ≤ n * 8) ∧
    (∀ (i : nat) d, streams !! i = Some d →
       stream_index d = Z.of_nat i ∧
       stream_start_channel d = Z.of_nat i * 8 + 1 ∧
       stream_port d = 5004 + Z.of_nat i ∧
       0 < stream_channels d ≤ 8) ∧
    concat (channel_range <$> streams) = seqZ 1 16 ∧
    Z.of_nat (length (concat (channel_range <$> streams))) = 16.
Proof.
  apply (calculate_streams_partitions _ 16 8 5004 "239.1.1.0" "0" 0);
    solve [vm_compute; reflexivity | lia].
Defined.

Lemma stream_for_address cc cpr base octet port i part :
  PyStr.split PyStr.dot base !! 3%nat = Some part →
  PyStr.split PyStr.dot (stream_multicast (stream_for cc cpr base octet port i))
  = <[3%nat := PyStr.of_int (octet + i)]> (PyStr.split PyStr.dot base).
Proof.
  intros Hpart. pose proof (lookup_lt_Some _ _ _ Hpart) as Hlen.
  apply (split_join PyStr.dot).
  - intros Hnil. apply (f_equal length) in Hnil.
    rewrite length_insert in Hnil. cbn in Hnil. lia.
  - apply Forall_insert; [apply split_no_sep|].
    eapply all_chars_impl, of_int_numeric.
    intros c Hc. by rewrite (numeric_not_dot _ Hc).
Qed.

Lemma stream_for_last_octet cc cpr base octet port i part :
  PyStr.split PyStr.dot base !! 3%nat = Some part →
  last_octet (stream_multicast (stream_for cc cpr base octet port i)) = Some (octet + i).
Proof.
  intros Hpart. unfold last_octet.
  rewrite (stream_for_address _ _ _ _ _ _ _ Hpart).
  rewrite list_lookup_insert_eq by eauto using lookup_lt_Some.
  cbn. apply to_int_of_int.
Qed.

(** C9. [calculate_streams] reads nothing but the four keys
    [channelCount], [channelsPerReceiver], [baseMulticastAddress] and
    [rtpDestinationPort] of the configuration: on two sender objects that
    agree on these four (whatever their other keys and attributes), it gives
    the same result, list or exception.  Being a function of [self] alone, it
    makes no call and changes no attribute. *)
Theorem calculate_streams_deterministic (self1 self2 : sender) :
  config self1 !! "channelCount" = config self2 !! "channelCount" →
  config self1 !! "channelsPerReceiver" = config self2 !! "channelsPerReceiver" →
  config self1 !! "baseMulticastAddress" = config self2 !! "baseMulticastAddress" →
  config self1 !! "rtpDestinationPort" = config self2 !! "rtpDestinationPort" →
  calculate_streams self1 = calculate_streams self2.
Proof.
  intros Hcc Hcpr Hbase Hport. unfold calculate_streams, subscript.
  by rewrite Hcc, Hcpr, Hbase, Hport.
Qed.

Lemma calculate_streams_deterministic_witness :
  calculate_streams (sender_of (sample_config 16 8 "239.1.1.0" 5004))
  = calculate_streams other_sender.
Proof.
  apply calculate_streams_deterministic; vm_compute; reflexivity.
Defined.

(** C10, as stated, fails: the conditions on [channelsPerReceiver] and
    on the base address do not keep [calculate_streams] from raising.
    With the port given as a string, line 126 raises [TypeError] at the
    first stream; without the key [rtpDestinationPort], line 108 raises
    [KeyError], also for [channelCount <= 0]. *)
Lemma calculate_streams_needs_integer_port :
  calculate_streams
    (sender_of (<["rtpDestinationPort" := VStr "5004"]>
                  (sample_config 16 8 "239.1.1.0" 5004)))
  = Raise TypeError ∧
  calculate_streams
    (sender_of (delete "rtpDestinationPort" (sample_config 0 8 "239.1.1.0" 5004)))
  = Raise (KeyError "rtpDestinationPort").
Proof. split; vm_compute; reflexivity. Qed.

(** C10, amended.  With integer [channelCount], [channelsPerReceiver >= 1]
    and port, and a base address that splits into at least four parts,
    the fourth reading as an integer (no number longer than any limit the
    interpreter sets on conversions), [calculate_streams] returns a list
    for every [channelCount]: the list has [ceil(channelCount /
    channelsPerReceiver)] streams, none when [channelCount <= 0]; the
    address of the stream at position [i] has [baseLastOctet + i] as its
    fourth component (its last one when the base address has four parts);
    and when that number is greater than 255 for the last stream, the list
    holds an address whose fourth component is greater than 255. *)
Theorem calculate_streams_returns
    (self : sender) (cc cpr port : Z) (base part : string) (octet : Z) :
  config self !! "channelCount" = Some (VInt cc) →
  config self !! "channelsPerReceiver" = Some (VInt cpr) →
  config self !! "baseMulticastAddress" = Some (VStr base) →
  config self !! "rtpDestinationPort" = Some (VInt port) →
  1 ≤ cpr →
  PyStr.split PyStr.dot base !! 3%nat = Some part →
  PyStr.to_int part = Some octet →
  short_numbers (config self) = true →
  let n := (cc + cpr - 1) `div` cpr in
  ∃ streams,
    calculate_streams self = Ok streams ∧
    Z.of_nat (length streams) = Z.max 0 n ∧
    (cc ≤ 0 → streams = []) ∧
    (0 < cc → (n - 1) * cpr < cc ≤ n * cpr) ∧
    (∀ i : nat, Z.of_nat i < n →
       ∃ d, streams !! i = Some d ∧
            last_octet (stream_multicast d) = Some (octet + Z.of_nat i) ∧
            (length (PyStr.split PyStr.dot base) = 4%nat →
             last (PyStr.split PyStr.dot (stream_multicast d))
             = Some (PyStr.of_int (octet + Z.of_nat i)))) ∧
    (0 < cc → 255 < octet + (n - 1) →
     ∃ d v, d ∈ streams ∧ last_octet (stream_multicast d) = Some v ∧ 255 < v).
Proof.
  intros Hcc Hcpr Hbase Hport Hpos Hpart Hoctet _ n.
  assert (∀ i : nat, Z.of_nat i < n →
            ∃ d, (stream_for cc cpr base octet port <$> range n) !! i = Some d ∧
                 last_octet (stream_multicast d) = Some (octet + Z.of_nat i) ∧
                 (length (PyStr.split PyStr.dot base) = 4%nat →
                  last (PyStr.split PyStr.dot (stream_multicast d))
                  = Some (PyStr.of_int (octet + Z.of_nat i)))) as Hat.
  { intros i Hi. exists (stream_for cc cpr base octet port (Z.of_nat i)). split.
    - unfold range. rewrite list_lookup_fmap.
      rewrite (proj2 (lookup_seqZ 0 n i (0 + Z.of_nat i))) by lia.
      by rewrite Z.add_0_l.
    - split; [by eapply stream_for_last_octet|].
      intros Hlen. rewrite (stream_for_address _ _ _ _ _ _ _ Hpart).
      destruct (PyStr.split PyStr.dot base) as [|a [|b [|c [|e [|? ?]]]]]; done. }
  eexists. split; [|split; [|split; [|split; [|split]]]].
  - eapply calculate_streams_ok; eauto. lia.
  - unfold range. rewrite length_fmap, length_seqZ. fold n. lia.
  - intros Hle. unfold range. rewrite seqZ_nil; [done|].
    apply Z.lt_succ_r, Z.div_lt_upper_bound; lia.
  - intros _. apply (ceiling_bounds cc cpr). lia.
  - exact Hat.
  - intros Hcc0 Hover.
    pose proof (ceiling_bounds cc cpr ltac:(lia)) as Hn. cbv zeta in Hn. fold n in Hn.
    assert (0 < n) as Hn0 by nia.
    destruct (Hat (Z.to_nat (n - 1)) ltac:(lia)) as (d & Hd & Hlast & _).
    exists d, (octet + (n - 1)). split; [by eapply list_elem_of_lookup_2|].
    split; [|done]. rewrite Hlast. f_equal. lia.
Qed.

Lemma calculate_streams_returns_witness :
  let n := (10 + 4 - 1) `div` 4 in
  ∃ streams,
    calculate_streams (sender_of (sample_config 10 4 "239.1.1.255" 5004)) = Ok streams ∧
    Z.of_nat (length streams) = Z.max 0 n ∧
    (10 ≤ 0 → streams = []) ∧
    (0 < 10 → (n - 1) * 4 < 10 ≤ n * 4) ∧
    (∀ i : nat, Z.of_nat i < n →
       ∃ d, streams !! i = Some d ∧
            last_octet (stream_multicast d) = Some (255 + Z.of_nat i) ∧
            (length (PyStr.split PyStr.dot "239.1.1.255") = 4%nat →
             last (PyStr.split PyStr.dot (stream_multicast d))
             = Some (PyStr.of_int (255 + Z.of_nat i)))) ∧
    (0 < 10 → 255 < 255 + (n - 1) →
     ∃ d v, d ∈ streams ∧ last_octet (stream_multicast d) = Some v ∧ 255 < v).
Proof.
  apply (calculate_streams_returns _ 10 4 5004 "239.1.1.255" "255" 255);
    solve [vm_compute; reflexivity | lia].
Defined.

(** C5. With base address 239.1.1.255, 16 channels and 8 per receiver,
    [calculate_streams] raises nothing and gives the second stream the
    address 239.1.1.256: its last component reads 256, not
    [(255 + 1) mod 256 = 0]. *)
Theorem last_octet_overflows :
  calculate_streams (sender_of (sample_config 16 8 "239.1.1.255" 5004))
  = Ok [ {| stream_index := 0; stream_multicast := "239.1.1.255"; stream_port := 5004;
            stream_channels := 8; stream_start_channel := 1 |};
         {| stream_index := 1; stream_multicast := "239.1.1.256"; stream_port := 5005;
            stream_channels := 8; stream_start_channel := 9 |} ] ∧
  last_octet "239.1.1.256" = Some 256 ∧
  (255 + 1) `mod` 256 = 0.
Proof. repeat split; vm_compute; reflexivity. Qed.

(** ** stop and the run loop *)

Lemma for_emit_run {A} (f : A → call) xs self :
  for_ xs (λ x, emit (f x)) self = (Returns (Ok tt), self, f <$> xs).
Proof.
  induction xs as [|x xs IH]; [done|].
  cbn [for_]. unfold mbind, M_bind. cbn. by rewrite IH.
Qed.

(** Every run of [stop] makes the calls of [stop_trace] and ends in
    [sys.exit(0)]. *)
Lemma stop_run self :
  stop self = (Returns (Raise (SystemExit 0)), stop_state self, stop_trace self).
Proof.
  unfold stop, stop_state, stop_trace, mbind, M_bind, get. cbn.
  rewrite for_emit_run.
  destruct (main_loop self) as [[[]]|], (ptp_clock self); cbn;
    by rewrite ?app_nil_r.
Qed.

Lemma stop_state_pipelines self : pipelines (stop_state self) = pipelines self.
Proof. unfold stop_state. by repeat case_match. Qed.

Lemma stop_state_ptp_clock self : ptp_clock (stop_state self) = ptp_clock self.
Proof. unfold stop_state. by repeat case_match. Qed.

Lemma subscript_list_raises {A} (l : list A) i e :
  subscript_list l i = Raise e → e = IndexError.
Proof. unfold subscript_list. repeat case_match; congruence. Qed.

(** A bus message either stops the sender or makes no call at all. *)
Lemma on_bus_message_run m stream_index self :
  on_bus_message m stream_index self = stop self ∨
  ∃ r, on_bus_message m stream_index self = (Returns r, self, [])
       ∧ ∀ code, r ≠ Raise (SystemExit code).
Proof.
  destruct m; cbn; auto; right.
  - by eexists.
  - unfold mbind, M_bind, get, lift. cbn.
    destruct (subscript_list (pipelines self) stream_index) as [p|e] eqn:Hsub; cbn.
    + by eexists.
    + apply subscript_list_raises in Hsub as ->. by eexists.
  - by eexists.
Qed.

(** *** Signals that arrive while [stop] runs *)

Lemma akin_refl self : akin self self.
Proof. by left. Qed.

Lemma akin_stop_state self : akin self (stop_state self).
Proof.
  unfold stop_state. destruct (main_loop self) as [[[]]|]; [by right|by left..].
Qed.

Lemma akin_trans self s1 s2 : akin self s1 → akin s1 s2 → akin self s2.
Proof. intros [->| ->] [->| ->]; (by left) || (by right). Qed.

Lemma akin_pipelines self s : akin self s → pipelines s = pipelines self.
Proof. by intros [->| ->]. Qed.

Lemma akin_ptp_clock self s : akin self s → ptp_clock s = ptp_clock self.
Proof. by intros [->| ->]. Qed.

Lemma stop_trace_calls self s c :
  akin self s → c ∈ stop_trace s → c ∈ stop_calls (pipelines self).
Proof.
  intros Hs. unfold stop_trace, stop_calls.
  rewrite (akin_pipelines _ _ Hs), !elem_of_app. fold (stopped (pipelines self)).
  rewrite !elem_of_cons.
  intros [Hc|[Hc|Hc]]; [by left|right..].
  - destruct (main_loop s) as [[[]]|];
      repeat (apply elem_of_cons in Hc as [->|Hc]; [by auto|]);
      by apply elem_of_nil in Hc.
  - destruct (ptp_clock s);
      repeat (apply elem_of_cons in Hc as [->|Hc]; [by auto|]);
      by apply elem_of_nil in Hc.
Qed.

Lemma stop_steps_unfold self :
  stop_steps self
  = imap (λ i c, (c, if decide (MainLoopQuit ∈ take (S i) (stop_trace self))
                     then stop_state self else self)) (stop_trace self).
Proof. unfold stop_steps. by rewrite stop_run. Qed.

Lemma stop_steps_calls self : (stop_steps self).*1 = stop_trace self.
Proof.
  rewrite stop_steps_unfold. apply list_eq. intros i.
  rewrite list_lookup_fmap, list_lookup_imap. by destruct (stop_trace self !! i).
Qed.

Lemma stop_steps_akin self : Forall (λ cs, akin self cs.2) (stop_steps self).
Proof.
  rewrite stop_steps_unfold. apply Forall_forall. intros [c s].
  intros (i & c' & [= -> ->] & _)%elem_of_lookup_imap.
  cbn. case_decide; [apply akin_stop_state|apply akin_refl].
Qed.

Lemma stop_trace_quit self :
  MainLoopQuit ∈ stop_trace self ↔ main_loop self = Some {| is_running := true |}.
Proof.
  unfold stop_trace. rewrite !elem_of_app. split.
  - intros [Hc|[Hc|Hc]].
    + apply list_elem_of_fmap in Hc as (p & [=] & _).
    + destruct (main_loop self) as [[[]]|]; [done|..];
        repeat (apply elem_of_cons in Hc as [[=]|Hc]); by apply elem_of_nil in Hc.
    + destruct (ptp_clock self);
        repeat (apply elem_of_cons in Hc as [[=]|Hc]); by apply elem_of_nil in Hc.
  - intros ->. right. left. cbn. rewrite !elem_of_cons. auto.
Qed.

Lemma stop_steps_last self :
  default self (snd <$> last (stop_steps self)) = stop_state self.
Proof.
  rewrite stop_steps_unfold.
  destruct (stop_trace self) as [|c t] eqn:Ht using rev_ind.
  - cbn. unfold stop_state.
    destruct (main_loop self) as [[[]]|] eqn:Hloop; [|done..].
    apply stop_trace_quit in Hloop. rewrite Ht in Hloop. by apply elem_of_nil in Hloop.
  - clear IHt. rewrite imap_app. cbn [imap]. rewrite last_snoc. cbn.
    rewrite Nat.add_0_r, firstn_all2 by (rewrite length_app; cbn; lia).
    case_decide as Hquit; [done|]. unfold stop_state.
    destruct (main_loop self) as [[[]]|] eqn:Hloop; [|done..].
    apply stop_trace_quit in Hloop. by rewrite Ht in Hloop.
Qed.

(** A handling that ends the process has made calls of [stop] only, the
    last of them those of one [stop] run to its end. *)
Lemma handle_stops t self self0 steps :
  handle t self = Some (self0, steps) →
  akin self self0 ∧
  Forall (λ cs, akin self cs.2) steps ∧
  ∃ pre s1,
    akin self s1 ∧ Forall (λ c, c ∈ stop_calls (pipelines self)) pre ∧
    steps.*1 = pre ++ stop_trace s1 ∧
    default self0 (snd <$> last steps) = stop_state s1.
Proof.
  assert (∀ s, akin self s →
            akin self s ∧ Forall (λ cs, akin self cs.2) (stop_steps s) ∧
            ∃ pre s1, akin self s1 ∧ Forall (λ c, c ∈ stop_calls (pipelines self)) pre ∧
                      (stop_steps s).*1 = pre ++ stop_trace s1 ∧
                      default s (snd <$> last (stop_steps s)) = stop_state s1) as Hstop.
  { intros s Hs. split; [done|]. split.
    - eapply Forall_impl; [apply stop_steps_akin|].
      intros cs Hcs. by eapply akin_trans.
    - exists [], s. split; [done|]. split; [done|].
      by rewrite stop_steps_calls, stop_steps_last. }
  revert self0 steps. induction t as [sig|stream_index m| |t IH n sig]; intros self0 steps; cbn.
  - intros [= <- <-]. apply Hstop, akin_refl.
  - destruct m; intros [= <- <-]; apply Hstop, akin_refl.
  - intros [= <- <-]. apply Hstop. by right.
  - destruct (handle t self) as [[self1 steps1]|].
    2:{ destruct n; [|done]. intros [= <- <-]. apply Hstop, akin_refl. }
    destruct (IH self1 steps1 eq_refl) as (Hself1 & Hakin & pre & s1 & Hs1 & Hpre & Hcalls & Hlast).
    case_decide as Hn.
    2:{ intros [= <- <-]. split; [done|]. split; [done|]. by exists pre, s1. }
    intros [= <- <-]. split; [done|].
    set (self_n := default self1 (snd <$> last (take n steps1))).
    assert (akin self self_n) as Hself_n.
    { unfold self_n. destruct (last (take n steps1)) as [[c s]|] eqn:Hl; [|done].
      apply last_Some_elem_of in Hl.
      assert ((c, s) ∈ steps1) as Hin%(proj1 (Forall_forall _ _) Hakin)
        by (revert Hl; apply subseteq_take). done. }
    destruct (Hstop self_n Hself_n) as (_ & Hakin_n & _).
    split; [apply Forall_app; split; [by apply Forall_take|done]|].
    exists (take n steps1.*1), self_n. split; [done|]. split.
    + apply Forall_take. rewrite Hcalls. apply Forall_app. split; [done|].
      apply Forall_forall. intros c. by apply stop_trace_calls.
    + split; [by rewrite fmap_app, fmap_take, stop_steps_calls|].
      destruct (stop_steps self_n) as [|cs l] eqn:Hsteps using rev_ind.
      * rewrite app_nil_r. fold self_n.
        pose proof (stop_steps_last self_n) as Hl. by rewrite Hsteps in Hl.
      * clear IHl. rewrite app_assoc, last_snoc.
        pose proof (stop_steps_last self_n) as Hl.
        by rewrite Hsteps, last_snoc in Hl.
Qed.

(** Whatever triggers arrive, and whatever signals interrupt their
    handling, the run loop either is still waiting, no call made, or has
    ended the process with status 0 at the end of one complete run of
    [stop]; the calls before it are those of the runs of [stop] that a
    signal has interrupted. *)
Lemma run_cases ts self :
  run ts self = (Waits, self, []) ∨
  ∃ pre s1,
    akin self s1 ∧ Forall (λ c, c ∈ stop_calls (pipelines self)) pre ∧
    run ts self = (Returns (Raise (SystemExit 0)), stop_state s1, pre ++ stop_trace s1).
Proof.
  induction ts as [|[sig|stream_index m| |t n sig] ts IH]; cbn [run].
  - by left.
  - right. exists [], self. split; [apply akin_refl|]. split; [done|]. apply stop_run.
  - destruct (on_bus_message_run m stream_index self) as [Hstop|(r & Hr & Hne)].
    + right. exists [], self. split; [apply akin_refl|]. split; [done|].
      by rewrite Hstop, stop_run.
    + rewrite Hr. destruct r as [[]|[]]; try (by destruct (Hne code));
        (destruct IH as [->|(pre & s1 & Hs1 & Hpre & ->)]; [by left|right; eauto 10]).
  - right. exists [], (set_main_loop (Some {| is_running := false |}) self).
    split; [by right|]. split; [done|].
    unfold mbind, M_bind, modify. cbn. by rewrite stop_run.
  - destruct (handle (Interrupted t n sig) self) as [[self0 steps]|] eqn:Hhandle; [|done].
    apply handle_stops in Hhandle as (_ & _ & pre & s1 & Hs1 & Hpre & -> & ->).
    right. by exists pre, s1.
Qed.

(** A signal that arrives when [stop] has made [n] calls starts [stop]
    again, on the sender object as it is then. *)
Lemma run_interrupted_signal sig1 n sig2 ts self :
  (n ≤ length (stop_trace self))%nat →
  ∃ self_n,
    akin self self_n ∧
    run (Interrupted (Signal sig1) n sig2 :: ts) self
    = (Returns (Raise (SystemExit 0)), stop_state self_n,
       take n (stop_trace self) ++ stop_trace self_n).
Proof.
  intros Hn. cbn [run handle].
  rewrite decide_True by (by rewrite <- (length_fmap fst), stop_steps_calls).
  set (self_n := default self (snd <$> last (take n (stop_steps self)))).
  assert (akin self self_n) as Hself_n.
  { unfold self_n. destruct (last (take n (stop_steps self))) as [[c s]|] eqn:Hl;
      [|apply akin_refl].
    apply last_Some_elem_of in Hl.
    assert ((c, s) ∈ stop_steps self) as Hin by (revert Hl; apply subseteq_take).
    by apply (proj1 (Forall_forall _ _) (stop_steps_akin self)) in Hin. }
  exists self_n. split; [done|]. f_equal; [f_equal|].
  - destruct (stop_steps self_n) as [|cs l] eqn:Hsteps using rev_ind.
    + rewrite app_nil_r. fold self_n.
      pose proof (stop_steps_last self_n) as Hl. by rewrite Hsteps in Hl.
    + clear IHl. rewrite app_assoc, last_snoc.
      pose proof (stop_steps_last self_n) as Hl.
      by rewrite Hsteps, last_snoc in Hl.
  - by rewrite fmap_app, fmap_take, !stop_steps_calls.
Qed.

Lemma stop_trace_again self :
  stop_trace (stop_state self)
  = stopped (pipelines self) ++
    match main_loop self with Some _ => [MainLoopIsRunning] | None => [] end ++
    match ptp_clock self with Some _ => [PtpDeinit] | None => [] end.
Proof.
  unfold stop_trace, stop_state, stopped.
  destruct (main_loop self) as [[[]]|] eqn:Hloop; cbn; by rewrite ?Hloop.
Qed.

(** C2, as stated, fails: there is no stopping flag.  Run on the sender
    object a first [stop] has left, [stop] sets both pipelines to NULL and
    releases the PTP subsystem again; and within one process, a SIGTERM
    that arrives when the [stop] of an Error message has made its five
    calls (before its [sys.exit]) makes [stop] run again: each pipeline is
    set to NULL twice and [ptp_deinit] is called twice. *)
Lemma stop_runs_again :
  stop running_sender
  = (Returns (Raise (SystemExit 0)), stop_state running_sender,
     [SetState 0%nat NULL; SetState 1%nat NULL; MainLoopIsRunning; MainLoopQuit;
      PtpDeinit]) ∧
  stop (stop_state running_sender)
  = (Returns (Raise (SystemExit 0)), stop_state running_sender,
     [SetState 0%nat NULL; SetState 1%nat NULL; MainLoopIsRunning; PtpDeinit]) ∧
  run [Interrupted (BusMessage 0 ERROR) 5 SIGTERM] running_sender
  = (Returns (Raise (SystemExit 0)), stop_state running_sender,
     [SetState 0%nat NULL; SetState 1%nat NULL; MainLoopIsRunning; MainLoopQuit;
      PtpDeinit;
      SetState 0%nat NULL; SetState 1%nat NULL; MainLoopIsRunning; PtpDeinit]).
Proof. repeat split; vm_compute; reflexivity. Qed.

(** C2, amended.  [stop] has no flag and no early return.  Every
    invocation runs the whole body on the sender object as it is: it sets
    every pipeline to NULL, quits the main loop if it is running, releases
    the PTP subsystem if there is a clock, and ends in [sys.exit(0)]; an
    invocation on the object a first one has left does all of it again but
    the [quit].  A signal that arrives while [stop] runs is such a later
    invocation: the calls the first has made are followed by those of a
    whole new [stop].  What the code does ensure is that the process ends,
    with status 0, at the end of the first [stop] that no signal
    interrupts: the calls of the run loop are none while it waits, and
    otherwise calls of interrupted [stop]s followed by one complete
    [stop]. *)
Theorem stop_runs_on_every_invocation
    (self : sender) (ts : list trigger) (n : nat) (sig1 sig2 : signum) :
  (∀ s,
     stop s = (Returns (Raise (SystemExit 0)), stop_state s, stop_trace s) ∧
     stop_trace (stop_state s)
     = stopped (pipelines s) ++
       match main_loop s with Some _ => [MainLoopIsRunning] | None => [] end ++
       match ptp_clock s with Some _ => [PtpDeinit] | None => [] end) ∧
  ((n ≤ length (stop_trace self))%nat →
   ∃ self_n,
     akin self self_n ∧
     run (Interrupted (Signal sig1) n sig2 :: ts) self
     = (Returns (Raise (SystemExit 0)), stop_state self_n,
        take n (stop_trace self) ++ stop_trace self_n)) ∧
  (run ts self = (Waits, self, []) ∨
   ∃ pre s1,
     akin self s1 ∧ Forall (λ c, c ∈ stop_calls (pipelines self)) pre ∧
     run ts self
     = (Returns (Raise (SystemExit 0)), stop_state s1, pre ++ stop_trace s1)).
Proof.
  split; [|split].
  - intros s. split; [apply stop_run|apply stop_trace_again].
  - apply run_interrupted_signal.
  - apply run_cases.
Qed.

Lemma stop_runs_on_every_invocation_witness :
  ∃ self_n,
    akin running_sender self_n ∧
    run [Interrupted (Signal SIGINT) 2 SIGTERM] running_sender
    = (Returns (Raise (SystemExit 0)), stop_state self_n,
       take 2 (stop_trace running_sender) ++ stop_trace self_n).
Proof.
  destruct (stop_runs_on_every_invocation running_sender [] 2 SIGINT SIGTERM)
    as (_ & Hagain & _).
  apply Hagain. vm_compute. lia.
Defined.

(** C4, as stated, fails: after an Error message on the bus of stream 0
    the process exits with status 0, the pipelines stopped and the PTP
    subsystem released. *)
Lemma error_message_exits_with_0 :
  let r := main (sample_env (JsonObject (sample_config 16 8 "239.1.1.0" 5004)) true []
                   [BusMessage 0 ERROR]) "aes67-config.json" false in
  r.1 = Some 0 ∧
  lifecycle r.2
  = [PtpInit; SetState 0%nat PLAYING; SetState 1%nat PLAYING;
     SetState 0%nat NULL; SetState 1%nat NULL; MainLoopQuit; PtpDeinit].
Proof. split; vm_compute; reflexivity. Qed.

(** C4, amended.  An Error message and an EndOfStream message are handled
    alike: each runs [stop], which sets every pipeline to NULL, quits the
    running main loop, releases the PTP subsystem and exits the process
    with status 0; the run loop handles no trigger after it. *)
Theorem error_and_eos_stop_with_status_0
    (stream_index : Z) (ts : list trigger) (self : sender) :
  on_bus_message ERROR stream_index self = stop self ∧
  on_bus_message EOS stream_index self = stop self ∧
  run (BusMessage stream_index ERROR :: ts) self = stop self ∧
  run (BusMessage stream_index EOS :: ts) self = stop self ∧
  stop self = (Returns (Raise (SystemExit 0)), stop_state self, stop_trace self) ∧
  exit_status (stop self).1.1 = Some 0.
Proof.
  repeat split; try done.
  - cbn. by rewrite stop_run.
  - cbn. by rewrite stop_run.
  - apply stop_run.
  - by rewrite stop_run.
Qed.

(** ** Start-up *)

(** C8. When the configuration file holds an object whose [deviceMode] is
    not the string "sender" (or is missing), [load_config] raises
    [ValueError]; the process ends with status 1 having called only
    [Gst.init]: [GstNet.ptp_init] is not called. *)
Theorem non_sender_mode_fails_before_clock
    (E : env) (path : string) (verbose : bool) (d : gmap string value) :
  read_config E path = JsonObject d →
  d !! "deviceMode" ≠ Some (VStr "sender") →
  load_config E path = Raise ValueError ∧
  main E path verbose = (Some 1, [GstInit]) ∧
  PtpInit ∉ (main E path verbose).2.
Proof.
  intros Hread Hmode.
  assert (load_config E path = Raise ValueError) as Hload.
  { unfold load_config. rewrite Hread. by case_decide. }
  assert (main E path verbose = (Some 1, [GstInit])) as Hmain.
  { unfold main, init. by rewrite Hload. }
  repeat split; [done..|]. rewrite Hmain. cbn. by intros ?%list_elem_of_singleton.
Qed.

Lemma non_sender_mode_fails_before_clock_witness :
  let E := sample_env (JsonObject receiver_config) true [] [] in
  load_config E "aes67-config.json" = Raise ValueError ∧
  main E "aes67-config.json" false = (Some 1, [GstInit]) ∧
  PtpInit ∉ (main E "aes67-config.json" false).2.
Proof.
  apply (non_sender_mode_fails_before_clock _ _ _ receiver_config);
    [reflexivity | vm_compute; discriminate].
Defined.

Lemma bind_run {A B} (m : M A) (k : A → M B) self :
  (m ≫= k) self =
  match m self with
  | (Returns (Ok a), self', t) =>
      let '(o, self'', t') := k a self' in (o, self'', t ++ t')
  | (Returns (Raise e), self', t) => (Returns (Raise e), self', t)
  | (Waits, self', t) => (Waits, self', t)
  end.
Proof. reflexivity. Qed.

Lemma lifecycle_app t1 t2 : lifecycle (t1 ++ t2) = lifecycle t1 ++ lifecycle t2.
Proof. apply filter_app. Qed.

Lemma elem_of_lifecycle c t : is_lifecycle c = true → c ∈ t → c ∈ lifecycle t.
Proof.
  intros Hc Hin. apply list_elem_of_filter. split; [|done]. by rewrite Hc.
Qed.

Lemma lifecycle_elem_of c t : c ∈ lifecycle t → c ∈ t.
Proof. by intros [_ ?]%list_elem_of_filter. Qed.

Lemma create_pipeline_run E s self :
  ∃ r t, create_pipeline E s self = (Returns r, self, t) ∧
         lifecycle t = [] ∧ ∀ code, r ≠ Raise (SystemExit code).
Proof.
  unfold create_pipeline, subscript, mbind, M_bind, get, lift, emit, raise. cbn.
  destruct (config self !! "jackClientName") as [name|]; cbn; [|by eexists _, _].
  destruct (config self !! "samplingRate") as [rate|]; cbn; [|by eexists _, _].
  destruct (parse_launch E _) as [p|]; cbn; [|by eexists _, _].
  destruct (ptp_clock self); cbn; by eexists _, _.
Qed.

(** One turn of the loop at lines 213-221: the pipeline is not built; or it
    is built and fails to start, and the process exits with status 1; or it
    is built and started. *)
Lemma start_stream_run E s self :
  (∃ e t, start_stream E s self = (Returns (Raise e), self, t) ∧
          lifecycle t = [] ∧ ∀ code, e ≠ SystemExit code) ∨
  (∃ p t, start_stream E s self
          = (Returns (Raise (SystemExit 1)),
             set_pipelines (pipelines self ++ [p]) self, t) ∧
          lifecycle t = started [p] ∧ set_state_playing E p = FAILURE) ∨
  (∃ p t, start_stream E s self
          = (Returns (Ok tt), set_pipelines (pipelines self ++ [p]) self, t) ∧
          lifecycle t = started [p] ∧ set_state_playing E p ≠ FAILURE).
Proof.
  destruct (create_pipeline_run E s self) as (r & t & Hcreate & Hlife & Hexit).
  unfold start_stream. rewrite bind_run, Hcreate.
  destruct r as [p|e].
  - right. unfold mbind, M_bind, modify, emit, sys_exit, raise. cbn.
    destruct (set_state_playing E p) eqn:Hp; [left|right..];
      exists p; eexists; (split; [reflexivity|]);
      rewrite lifecycle_app, Hlife; split; (reflexivity || congruence).
  - left. exists e, t. split; [done|]. split; [done|].
    intros code ->. by apply (Hexit code).
Qed.

(** The loop at lines 213-221 starts pipelines one after the other and
    ends at the first that is not built or fails to start. *)
Lemma start_streams_run E streams self :
  ∃ o self' t ps,
    for_ streams (start_stream E) self = (o, self', t) ∧
    lifecycle t = started ps ∧
    ((o = Returns (Ok tt) ∧ Forall (λ q, set_state_playing E q ≠ FAILURE) ps) ∨
     (∃ e, o = Returns (Raise e) ∧ (∀ code, e ≠ SystemExit code) ∧
           Forall (λ q, set_state_playing E q ≠ FAILURE) ps) ∨
     (o = Returns (Raise (SystemExit 1)) ∧
      ∃ ps' p, ps = ps' ++ [p] ∧
               Forall (λ q, set_state_playing E q ≠ FAILURE) ps' ∧
               set_state_playing E p = FAILURE)).
Proof.
  revert self. induction streams as [|s streams IH]; intros self.
  - exists (Returns (Ok tt)), self, [], []. split; [done|]. split; [done|]. by left.
  - cbn [for_]. rewrite bind_run.
    destruct (start_stream_run E s self)
      as [(e & t & -> & Hlife & Hexit)|[(p & t & -> & Hlife & Hp)|(p & t & -> & Hlife & Hp)]].
    + exists (Returns (Raise e)), self, t, []. split; [done|]. split; [done|].
      right; left. by exists e.
    + eexists _, _, t, [p]. split; [done|]. split; [done|].
      right; right. split; [done|]. by exists [], p.
    + destruct (IH (set_pipelines (pipelines self ++ [p]) self))
        as (o & self' & t' & ps & -> & Hlife' & Hcases).
      exists o, self', (t ++ t'), (p :: ps). split; [done|].
      split; [by rewrite lifecycle_app, Hlife, Hlife'|].
      destruct Hcases as [[-> Hps]|[(e & -> & Hexit & Hps)|(-> & ps' & q & -> & Hps & Hq)]].
      * left. split; [done|]. by constructor.
      * right; left. exists e. repeat split; [done|]. by constructor.
      * right; right. split; [done|]. exists (p :: ps'), q.
        split; [done|]. split; [by constructor|done].
Qed.

Lemma init_ptp_clock_run E self :
  ∃ b self' t, init_ptp_clock E self = (Returns (Ok b), self', t) ∧
               lifecycle t = [PtpInit].
Proof.
  unfold init_ptp_clock, mbind, M_bind, get, emit, modify. cbn.
  destruct (ptp_init E); cbn; [|by eexists _, _, _].
  destruct (ptp_clock_new E _); cbn; [|by eexists _, _, _].
  destruct (wait_for_sync E); by eexists _, _, _.
Qed.

Lemma started_not_failed E ps p :
  Forall (λ q, set_state_playing E q ≠ FAILURE) ps →
  SetState p PLAYING ∈ started ps → set_state_playing E p ≠ FAILURE.
Proof.
  intros Hps (q & [= ->] & Hq)%list_elem_of_fmap.
  by eapply Forall_forall in Hps.
Qed.

Lemma stop_trace_starts_nothing self p : SetState p PLAYING ∉ stop_trace self.
Proof.
  unfold stop_trace. rewrite !elem_of_app. intros [Hin|[Hin|Hin]].
  - by apply list_elem_of_fmap in Hin as (q & [=] & _).
  - destruct (main_loop self) as [[[]]|];
      repeat (apply elem_of_cons in Hin as [[=]|Hin]); by apply elem_of_nil in Hin.
  - destruct (ptp_clock self);
      repeat (apply elem_of_cons in Hin as [[=]|Hin]); by apply elem_of_nil in Hin.
Qed.

Lemma stop_calls_start_nothing ps p : SetState p PLAYING ∉ stop_calls ps.
Proof.
  unfold stop_calls. rewrite elem_of_app. intros [Hin|Hin].
  - by apply list_elem_of_fmap in Hin as (q & [=] & _).
  - repeat (apply elem_of_cons in Hin as [[=]|Hin]). by apply elem_of_nil in Hin.
Qed.

Lemma run_starts_nothing ts self p o self' t :
  run ts self = (o, self', t) → SetState p PLAYING ∉ t.
Proof.
  intros Hrun.
  destruct (run_cases ts self) as [Hwait|(pre & s1 & _ & Hpre & Hstop)].
  - rewrite Hwait in Hrun. injection Hrun as _ _ <-. apply not_elem_of_nil.
  - rewrite Hstop in Hrun. injection Hrun as _ _ <-.
    rewrite elem_of_app. intros [Hin|Hin].
    + apply (proj1 (Forall_forall _ _) Hpre) in Hin.
      by apply stop_calls_start_nothing in Hin.
    + by apply stop_trace_starts_nothing in Hin.
Qed.

(** What [start] does once every pipeline is started (lines 223-238): the
    client name is read for the message of line 224, and the run loop is
    entered. *)
Lemma after_loop_run E (config : gmap string value) self :
  (lift (subscript config "jackClientName") ≫= λ _,
   emit MainLoopNew;;
   modify (set_main_loop (Some {| is_running := false |}));;
   emit (SignalInstall SIGINT);;
   emit (SignalInstall SIGTERM);;
   emit MainLoopRun;;
   modify (set_main_loop (Some {| is_running := true |}));;
   run (triggers E)) self
  = match config !! "jackClientName" with
    | None => (Returns (Raise (KeyError "jackClientName")), self, [])
    | Some _ =>
        let '(o, self', t) :=
          run (triggers E) (set_main_loop (Some {| is_running := true |}) self) in
        (o, self', run_loop_calls ++ t)
    end.
Proof.
  unfold subscript, mbind, M_bind, lift, emit, modify. cbn.
  destruct (config !! "jackClientName"); [|done]. cbn.
  change (set_main_loop (Some {| is_running := true |})
            (set_main_loop (Some {| is_running := false |}) self))
    with (set_main_loop (Some {| is_running := true |}) self).
  by destruct (run (triggers E) _) as [[o self'] t].
Qed.

(** It starts no pipeline. *)
Lemma after_loop_starts_nothing E (config : gmap string value) self o self' t p :
  (lift (subscript config "jackClientName") ≫= λ _,
   emit MainLoopNew;;
   modify (set_main_loop (Some {| is_running := false |}));;
   emit (SignalInstall SIGINT);;
   emit (SignalInstall SIGTERM);;
   emit MainLoopRun;;
   modify (set_main_loop (Some {| is_running := true |}));;
   run (triggers E)) self = (o, self', t) →
  SetState p PLAYING ∉ t.
Proof.
  rewrite after_loop_run. destruct (config !! "jackClientName").
  - destruct (run (triggers E) _) as [[o1 self1] t1] eqn:Hrun.
    intros [= _ _ <-]. apply run_starts_nothing with (p := p) in Hrun.
    intros Hin. repeat (apply elem_of_cons in Hin as [[=]|Hin]). done.
  - intros [= _ _ <-]. apply not_elem_of_nil.
Qed.

(** A turn of the loop, and so the loop, that ends in [sys.exit(1)] has
    made the failing [set_state(PLAYING)] its last call. *)
Lemma start_stream_fails_last E s self self' t :
  start_stream E s self = (Returns (Raise (SystemExit 1)), self', t) →
  ∃ p tc, t = tc ++ [SetState p PLAYING] ∧ set_state_playing E p = FAILURE.
Proof.
  destruct (create_pipeline_run E s self) as (r & tc & Hcreate & _ & Hexit).
  unfold start_stream. rewrite bind_run, Hcreate. destruct r as [p|e].
  - unfold mbind, M_bind, modify, emit, sys_exit, raise. cbn.
    destruct (set_state_playing E p) eqn:Hp; [|done..].
    intros [= _ <-]. by exists p, tc.
  - intros [= -> _ _]. by destruct (Hexit 1).
Qed.

Lemma start_streams_fail_last E streams self self' t :
  for_ streams (start_stream E) self = (Returns (Raise (SystemExit 1)), self', t) →
  ∃ p tc, t = tc ++ [SetState p PLAYING] ∧ set_state_playing E p = FAILURE.
Proof.
  revert self self' t.
  induction streams as [|s streams IH]; intros self self' t; [done|].
  cbn [for_]. rewrite bind_run.
  destruct (start_stream E s self) as [[[[[]|e]|] self1] t1] eqn:Hs.
  - destruct (for_ streams (start_stream E) self1) as [[o2 self2] t2] eqn:Hloop.
    intros [= -> _ <-]. apply IH in Hloop as (p & tc & -> & Hp).
    exists p, (t1 ++ tc). by rewrite app_assoc.
  - intros [= -> <- <-]. by eapply start_stream_fails_last.
  - done.
Qed.

(** C3, as stated, fails: when the second pipeline fails to start, the
    process exits with status 1 and the first pipeline, started, is not set
    to NULL, nor is the PTP subsystem released. *)
Lemma failed_start_stops_nothing :
  let r := main (sample_env (JsonObject (sample_config 16 8 "239.1.1.0" 5004)) true
                   [1%nat] []) "aes67-config.json" false in
  r.1 = Some 1 ∧
  lifecycle r.2 = [PtpInit; SetState 0%nat PLAYING; SetState 1%nat PLAYING] ∧
  (SetState 0%nat NULL ∉ r.2) ∧
  (PtpDeinit ∉ r.2).
Proof.
  cbv zeta. split; [vm_compute; reflexivity|]. split; [vm_compute; reflexivity|].
  split; intros Hin.
  - apply (elem_of_lifecycle (SetState 0%nat NULL) _ eq_refl) in Hin.
    vm_compute in Hin.
    repeat (apply elem_of_cons in Hin as [[=]|Hin]). by apply elem_of_nil in Hin.
  - apply (elem_of_lifecycle PtpDeinit _ eq_refl) in Hin.
    vm_compute in Hin.
    repeat (apply elem_of_cons in Hin as [[=]|Hin]). by apply elem_of_nil in Hin.
Qed.

(** C3, amended.  If a pipeline fails to start ([set_state(PLAYING)]
    returns FAILURE), [start] exits at once with status 1 and the stop
    sequence is not run.  The failed [set_state(PLAYING)] is the last call
    of the whole run: no later pipeline is built or started.  Before it
    the lifecycle calls are [ptp_init] and the starts, none failing, of
    the pipelines of the streams before; no pipeline is set to NULL and
    the PTP subsystem is not released. *)
Theorem failed_start_exits_without_stop
    (E : env) (self self' : sender) (o : outcome unit) (t : list call) :
  start E self = (o, self', t) →
  start_failed E t →
  o = Returns (Raise (SystemExit 1)) ∧
  exit_status o = Some 1 ∧
  (∃ ps p t',
     t = t' ++ [SetState p PLAYING] ∧
     lifecycle t' = PtpInit :: started ps ∧
     Forall (λ q, set_state_playing E q ≠ FAILURE) ps ∧
     set_state_playing E p = FAILURE) ∧
  (∀ q, SetState q NULL ∉ t) ∧
  (PtpDeinit ∉ t).
Proof.
  intros Hstart (p & Hin & Hfail).
  assert (o = Returns (Raise (SystemExit 1)) ∧
          ∃ ps q t', t = t' ++ [SetState q PLAYING] ∧
                     lifecycle t' = PtpInit :: started ps ∧
                     Forall (λ q, set_state_playing E q ≠ FAILURE) ps ∧
                     set_state_playing E q = FAILURE)
    as [-> (ps & q & t' & -> & Hlife & Hps & Hq)].
  { apply (elem_of_lifecycle (SetState p PLAYING) _ eq_refl) in Hin.
    unfold start in Hstart. rewrite bind_run in Hstart.
    destruct (init_ptp_clock_run E self) as (b & self0 & t0 & Hinit & Hlife0).
    rewrite Hinit in Hstart.
    destruct b; cbn [negb] in Hstart.
    - rewrite bind_run in Hstart. cbn [get] in Hstart.
      rewrite bind_run in Hstart. cbn [lift] in Hstart.
      destruct (calculate_streams self0) as [streams|e].
      + rewrite bind_run in Hstart.
        destruct (start_streams_run E streams self0)
          as (o1 & self1 & t1 & ps & Hloop & Hlife1 & Hcases).
        rewrite Hloop in Hstart.
        destruct Hcases as [[-> Hps]|[(e & -> & Hexit & Hps)|(-> & ps' & q & -> & Hps & Hq)]].
        * set (tail := lift _ ≫= _) in Hstart.
          destruct (tail self1) as [[o2 self2] t2] eqn:Htail.
          injection Hstart as <- <- <-.
          rewrite !lifecycle_app, Hlife0, Hlife1 in Hin. cbn in Hin.
          apply elem_of_cons in Hin as [[=]|Hin].
          apply elem_of_app in Hin as [Hin|Hin].
          -- by destruct (started_not_failed E ps p Hps Hin).
          -- apply lifecycle_elem_of in Hin.
             by destruct (after_loop_starts_nothing E _ _ _ _ _ p Htail).
        * injection Hstart as <- <- <-.
          rewrite !lifecycle_app, Hlife0, Hlife1 in Hin. cbn in Hin.
          rewrite ?app_nil_r in Hin.
          apply elem_of_cons in Hin as [[=]|Hin].
          by destruct (started_not_failed E ps p Hps Hin).
        * injection Hstart as <- <- <-. split; [done|].
          destruct (start_streams_fail_last _ _ _ _ _ Hloop) as (q' & tc & -> & _).
          rewrite lifecycle_app in Hlife1.
          change (lifecycle [SetState q' PLAYING]) with [SetState q' PLAYING] in Hlife1.
          unfold started in Hlife1. rewrite fmap_app in Hlife1.
          apply app_inj_tail in Hlife1 as [Hlife1 [= ->]].
          exists ps', q, (t0 ++ tc). rewrite ?app_nil_r, app_assoc.
          split; [done|]. split; [|done].
          rewrite lifecycle_app, Hlife0, Hlife1. done.
      + injection Hstart as <- <- <-.
        rewrite !lifecycle_app, Hlife0 in Hin. cbn in Hin.
        apply elem_of_cons in Hin as [[=]|Hin]. by apply elem_of_nil in Hin.
    - injection Hstart as <- <- <-.
      rewrite !lifecycle_app, Hlife0 in Hin. cbn in Hin.
      apply elem_of_cons in Hin as [[=]|Hin]. by apply elem_of_nil in Hin. }
  split; [done|]. split; [done|]. split; [by eauto 10|].
  assert (lifecycle (t' ++ [SetState q PLAYING]) = PtpInit :: started (ps ++ [q])) as Hall.
  { rewrite lifecycle_app, Hlife. unfold started. by rewrite fmap_app. }
  split; [intros r|]; intros Hr.
  - apply (elem_of_lifecycle (SetState r NULL) _ eq_refl) in Hr.
    rewrite Hall in Hr. apply elem_of_cons in Hr as [[=]|Hr].
    by apply list_elem_of_fmap in Hr as (? & [=] & _).
  - apply (elem_of_lifecycle PtpDeinit _ eq_refl) in Hr.
    rewrite Hall in Hr. apply elem_of_cons in Hr as [[=]|Hr].
    by apply list_elem_of_fmap in Hr as (? & [=] & _).
Qed.

Lemma failed_start_exits_without_stop_witness :
  let E := sample_env (JsonObject (sample_config 16 8 "239.1.1.0" 5004)) true
             [1%nat] [] in
  let r := start E (sender_of (sample_config 16 8 "239.1.1.0" 5004)) in
  r.1.1 = Returns (Raise (SystemExit 1)) ∧
  exit_status r.1.1 = Some 1 ∧
  (∃ ps p t',
     r.2 = t' ++ [SetState p PLAYING] ∧
     lifecycle t' = PtpInit :: started ps ∧
     Forall (λ q, set_state_playing E q ≠ FAILURE) ps ∧
     set_state_playing E p = FAILURE) ∧
  (∀ q, SetState q NULL ∉ r.2) ∧
  (PtpDeinit ∉ r.2).
Proof.
  cbv zeta.
  set (E := sample_env _ _ _ _).
  set (self := sender_of _).
  apply (failed_start_exits_without_stop E self (start E self).1.2).
  - by destruct (start E self) as [[? ?] ?].
  - exists 1%nat. split; [|reflexivity].
    apply lifecycle_elem_of. vm_compute.
    apply elem_of_cons; right. apply elem_of_cons; right. apply elem_of_cons; by left.
Defined.

(** ** More on calculate_streams: destinations, channel counts, errors *)

Lemma subscript_list_none {A} (l : list A) (i : nat) :
  l !! i = None → subscript_list l (Z.of_nat i) = Raise IndexError.
Proof.
  intros Hi%lookup_ge_None. unfold subscript_list.
  destruct (Z.ltb_spec (Z.of_nat i) 0) as [?|_]; [lia|].
  destruct (Z.leb_spec 0 (Z.of_nat i)) as [_|?]; [|lia].
  destruct (Z.ltb_spec (Z.of_nat i) (Z.of_nat (length l))) as [?|_]; [lia|done].
Qed.

Lemma split_nonempty sep s : PyStr.split sep s ≠ [].
Proof.
  destruct s as [|c s]; cbn; [done|].
  destruct (Ascii.eqb c sep); [done|]. by destruct (PyStr.split sep s).
Qed.

Lemma join_split sep s :
  PyStr.join (String sep EmptyString) (PyStr.split sep s) = s.
Proof.
  induction s as [|c s IH]; [done|]. cbn [PyStr.split].
  destruct (Ascii.eqb_spec c sep) as [->|Hne].
  - pose proof (split_nonempty sep s) as Hnil.
    change (PyStr.join (String sep EmptyString) (EmptyString :: PyStr.split sep s))
      with (match PyStr.split sep s with
            | [] => EmptyString
            | _ :: _ => String sep (PyStr.join (String sep EmptyString) (PyStr.split sep s))
            end).
    rewrite IH. by destruct (PyStr.split sep s).
  - pose proof (split_nonempty sep s) as Hnil.
    destruct (PyStr.split sep s) as [|p ps]; [done|].
    destruct ps as [|q ps]; cbn in *; by rewrite <- IH.
Qed.

(** X1. No two streams share a destination: with integer counts and
    port, in the list [calculate_streams] returns, the multicast addresses
    are pairwise distinct, and so are the ports (whatever the sign of the
    counts). *)
Theorem streams_have_distinct_destinations
    (self : sender) (cc cpr port : Z) (base part : string) (octet : Z) :
  config self !! "channelCount" = Some (VInt cc) →
  config self !! "channelsPerReceiver" = Some (VInt cpr) →
  config self !! "baseMulticastAddress" = Some (VStr base) →
  config self !! "rtpDestinationPort" = Some (VInt port) →
  cpr ≠ 0 →
  PyStr.split PyStr.dot base !! 3%nat = Some part →
  PyStr.to_int part = Some octet →
  short_numbers (config self) = true →
  ∃ streams,
    calculate_streams self = Ok streams ∧
    NoDup (stream_multicast <$> streams) ∧
    NoDup (stream_port <$> streams).
Proof.
  intros Hcc Hcpr Hbase Hport Hnz Hpart Hoctet _.
  eexists. split; [by eapply calculate_streams_ok|].
  rewrite <- !list_fmap_compose. split.
  - apply NoDup_fmap_2_strong; [|apply NoDup_seqZ].
    intros i j _ _ Heq. cbn in Heq.
    apply (f_equal last_octet) in Heq.
    change (last_octet (stream_multicast (stream_for cc cpr base octet port i))
            = last_octet (stream_multicast (stream_for cc cpr base octet port j))) in Heq.
    rewrite !(stream_for_last_octet _ _ _ _ _ _ part Hpart) in Heq.
    injection Heq. lia.
  - apply NoDup_fmap_2_strong; [|apply NoDup_seqZ].
    intros i j _ _ Heq. cbn in Heq. lia.
Qed.

Lemma streams_have_distinct_destinations_witness :
  ∃ streams,
    calculate_streams (sender_of (sample_config 10 4 "239.1.1.255" 5004)) = Ok streams ∧
    NoDup (stream_multicast <$> streams) ∧
    NoDup (stream_port <$> streams).
Proof.
  apply (streams_have_distinct_destinations _ 10 4 5004 "239.1.1.255" "255" 255);
    solve [vm_compute; reflexivity | lia].
Defined.

(** X2. The address of a stream has as many dot-separated components as
    the base address and the same ones everywhere but in fourth place; and
    when the fourth component of the base address is written the way [str]
    writes its value, the stream of index 0 is sent to the base address
    itself. *)
Theorem address_keeps_other_components
    (self : sender) (cc cpr port : Z) (base part : string) (octet : Z) :
  config self !! "channelCount" = Some (VInt cc) →
  config self !! "channelsPerReceiver" = Some (VInt cpr) →
  config self !! "baseMulticastAddress" = Some (VStr base) →
  config self !! "rtpDestinationPort" = Some (VInt port) →
  cpr ≠ 0 →
  PyStr.split PyStr.dot base !! 3%nat = Some part →
  PyStr.to_int part = Some octet →
  short_numbers (config self) = true →
  ∃ streams,
    calculate_streams self = Ok streams ∧
    ∀ (i : nat) d, streams !! i = Some d →
      length (PyStr.split PyStr.dot (stream_multicast d))
      = length (PyStr.split PyStr.dot base) ∧
      (∀ k : nat, k ≠ 3%nat →
         PyStr.split PyStr.dot (stream_multicast d) !! k
         = PyStr.split PyStr.dot base !! k) ∧
      (i = 0%nat → PyStr.of_int octet = part → stream_multicast d = base).
Proof.
  intros Hcc Hcpr Hbase Hport Hnz Hpart Hoctet _.
  eexists. split; [by eapply calculate_streams_ok|].
  intros i d Hd. unfold range in Hd. rewrite list_lookup_fmap in Hd.
  destruct (seqZ 0 _ !! i) as [j|] eqn:Hj; [|done].
  apply lookup_seqZ in Hj as [-> _]. injection Hd as <-. rewrite Z.add_0_l.
  rewrite (stream_for_address _ _ _ _ _ _ _ Hpart). split; [apply length_insert|].
  split.
  - intros k Hk. by apply list_lookup_insert_ne.
  - intros -> Hcanon. cbn [stream_for stream_multicast].
    rewrite Z.add_0_r, Hcanon, list_insert_id by done.
    apply (join_split PyStr.dot).
Qed.

Lemma address_keeps_other_components_witness :
  ∃ streams,
    calculate_streams (sender_of (sample_config 16 8 "239.1.1.0" 5004)) = Ok streams ∧
    ∀ (i : nat) d, streams !! i = Some d →
      length (PyStr.split PyStr.dot (stream_multicast d))
      = length (PyStr.split PyStr.dot "239.1.1.0") ∧
      (∀ k : nat, k ≠ 3%nat →
         PyStr.split PyStr.dot (stream_multicast d) !! k
         = PyStr.split PyStr.dot "239.1.1.0" !! k) ∧
      (i = 0%nat → PyStr.of_int 0 = "0"%string → stream_multicast d = "239.1.1.0"%string).
Proof.
  apply (address_keeps_other_components _ 16 8 5004 "239.1.1.0" "0" 0);
    solve [vm_compute; reflexivity | lia].
Defined.

(** X3. With positive integer counts every stream but the last carries exactly
    [channelsPerReceiver] channels, and the last carries what is left:
    [channelCount - (n - 1) * channelsPerReceiver] for [n] streams. *)
Theorem only_last_stream_is_short
    (self : sender) (cc cpr port : Z) (base part : string) (octet : Z) :
  config self !! "channelCount" = Some (VInt cc) →
  config self !! "channelsPerReceiver" = Some (VInt cpr) →
  config self !! "baseMulticastAddress" = Some (VStr base) →
  config self !! "rtpDestinationPort" = Some (VInt port) →
  0 < cc → 0 < cpr →
  PyStr.split PyStr.dot base !! 3%nat = Some part →
  PyStr.to_int part = Some octet →
  short_numbers (config self) = true →
  ∃ streams,
    calculate_streams self = Ok streams ∧
    ∀ (i : nat) d, streams !! i = Some d →
      (S i < length streams)%nat ∧ stream_channels d = cpr ∨
      S i = length streams ∧
      stream_channels d = cc - (Z.of_nat (length streams) - 1) * cpr.
Proof.
  intros Hcc Hcpr Hbase Hport Hpos Hposr Hpart Hoctet _.
  pose proof (ceiling_bounds cc cpr Hposr) as Hn. cbv zeta in Hn.
  eexists. split; [eapply calculate_streams_ok; eauto; lia|].
  intros i d Hd. rewrite length_fmap. unfold range in *.
  rewrite length_seqZ. rewrite list_lookup_fmap in Hd.
  destruct (seqZ 0 _ !! i) as [j|] eqn:Hj; [|done].
  apply lookup_seqZ in Hj as [-> Hi]. injection Hd as <-. cbn.
  set (n := (cc + cpr - 1) `div` cpr) in *.
  destruct (decide (Z.of_nat i + 1 < n)) as [Hlt|Hge].
  - left. split; [lia|nia].
  - right. split; [lia|]. rewrite Z2Nat.id by lia.
    assert (Z.of_nat i = n - 1) as -> by lia. nia.
Qed.

Lemma only_last_stream_is_short_witness :
  ∃ streams,
    calculate_streams (sender_of (sample_config 10 4 "239.1.1.0" 5004)) = Ok streams ∧
    ∀ (i : nat) d, streams !! i = Some d →
      (S i < length streams)%nat ∧ stream_channels d = 4 ∨
      S i = length streams ∧
      stream_channels d = 10 - (Z.of_nat (length streams) - 1) * 4.
Proof.
  apply (only_last_stream_is_short _ 10 4 5004 "239.1.1.0" "0" 0);
    solve [vm_compute; reflexivity | lia].
Defined.

Lemma for_each_raises {A B} (f : A → result B) xs e :
  for_each f xs = Raise e → ∃ x, x ∈ xs ∧ f x = Raise e.
Proof.
  induction xs as [|x xs IH]; [done|]. cbn [for_each].
  destruct (f x) as [y|e'] eqn:Hx; cbn.
  - destruct (for_each f xs) as [ys|e'] eqn:Hxs; cbn; [done|].
    intros [= ->]. destruct (IH eq_refl) as (x' & Hin & Hx').
    exists x'. split; [by apply list_elem_of_further|done].
  - intros [= ->]. exists x. split; [apply list_elem_of_here|done].
Qed.

Lemma for_each_first_raises {A B} (f : A → result B) x xs e :
  f x = Raise e → for_each f (x :: xs) = Raise e.
Proof. intros Hx. cbn [for_each]. by rewrite Hx. Qed.

(** X4. With positive integer counts and an integer port, the base
    address, ASCII text, decides the result: fewer than four dot-separated
    components give [IndexError], a fourth component that [int] rejects
    gives [ValueError], and otherwise the list of streams is returned. *)
Theorem calculate_streams_address_errors
    (self : sender) (cc cpr port : Z) (base : string) :
  config self !! "channelCount" = Some (VInt cc) →
  config self !! "channelsPerReceiver" = Some (VInt cpr) →
  config self !! "baseMulticastAddress" = Some (VStr base) →
  config self !! "rtpDestinationPort" = Some (VInt port) →
  0 < cc → 0 < cpr →
  PyStr.is_ascii base = true →
  short_numbers (config self) = true →
  calculate_streams self =
  match PyStr.split PyStr.dot base !! 3%nat with
  | None => Raise IndexError
  | Some part =>
      match PyStr.to_int part with
      | None => Raise ValueError
      | Some octet =>
          Ok (stream_for cc cpr base octet port <$> range ((cc + cpr - 1) `div` cpr))
      end
  end.
Proof.
  intros Hcc Hcpr Hbase Hport Hpos Hposr _ _.
  pose proof (ceiling_bounds cc cpr Hposr) as Hn. cbv zeta in Hn.
  destruct (PyStr.split PyStr.dot base !! 3%nat) as [part|] eqn:Hpart;
    [destruct (PyStr.to_int part) as [octet|] eqn:Hoctet|].
  - eapply calculate_streams_ok; eauto. lia.
  - rewrite (calculate_streams_unfold _ _ _ _ _ Hcc Hcpr Hbase Hport).
    destruct (Z.eqb_spec cpr 0) as [?|_]; [lia|].
    unfold range. rewrite seqZ_cons by nia. apply for_each_first_raises.
    pose proof (subscript_list_lookup _ 3 _ Hpart) as Hsub.
    change (Z.of_nat 3) with 3 in Hsub.
    unfold stream_at, mbind, result_bind. by rewrite Hsub, Hoctet.
  - rewrite (calculate_streams_unfold _ _ _ _ _ Hcc Hcpr Hbase Hport).
    destruct (Z.eqb_spec cpr 0) as [?|_]; [lia|].
    unfold range. rewrite seqZ_cons by nia. apply for_each_first_raises.
    pose proof (subscript_list_none _ 3 Hpart) as Hsub.
    change (Z.of_nat 3) with 3 in Hsub.
    unfold stream_at, mbind, result_bind. by rewrite Hsub.
Qed.

Lemma calculate_streams_address_errors_witness :
  calculate_streams (sender_of (sample_config 16 8 "239.1.1" 5004)) =
  match PyStr.split PyStr.dot "239.1.1" !! 3%nat with
  | None => Raise IndexError
  | Some part =>
      match PyStr.to_int part with
      | None => Raise ValueError
      | Some octet =>
          Ok (stream_for 16 8 "239.1.1" octet 5004 <$> range ((16 + 8 - 1) `div` 8))
      end
  end.
Proof.
  apply (calculate_streams_address_errors _ 16 8 5004 "239.1.1");
    solve [vm_compute; reflexivity | lia].
Defined.

(** The four keys are read in the order of lines 105-108, before
    anything is computed: the first of [channelCount],
    [channelsPerReceiver], [baseMulticastAddress], [rtpDestinationPort]
    that the configuration lacks is the one the [KeyError] names, whatever
    the values of the others. *)
Lemma calculate_streams_missing_key (self : sender) :
  (config self !! "channelCount" = None →
   calculate_streams self = Raise (KeyError "channelCount")) ∧
  (is_Some (config self !! "channelCount") →
   config self !! "channelsPerReceiver" = None →
   calculate_streams self = Raise (KeyError "channelsPerReceiver")) ∧
  (is_Some (config self !! "channelCount") →
   is_Some (config self !! "channelsPerReceiver") →
   config self !! "baseMulticastAddress" = None →
   calculate_streams self = Raise (KeyError "baseMulticastAddress")) ∧
  (is_Some (config self !! "channelCount") →
   is_Some (config self !! "channelsPerReceiver") →
   is_Some (config self !! "baseMulticastAddress") →
   config self !! "rtpDestinationPort" = None →
   calculate_streams self = Raise (KeyError "rtpDestinationPort")).
Proof.
  unfold calculate_streams, subscript. repeat split.
  - by intros ->.
  - by intros [? ->] ->.
  - by intros [? ->] [? ->] ->.
  - by intros [? ->] [? ->] [? ->] ->.
Qed.

Lemma stream_at_raises cc cpr base_multicast base_port i e :
  stream_at cc cpr base_multicast base_port i = Raise e →
  e ∈ [AttributeError; IndexError; ValueError; TypeError].
Proof.
  unfold stream_at, mbind, result_bind.
  destruct base_multicast as [?|base]; [intros [= <-]; set_solver|].
  destruct (subscript_list _ 3) as [part|e'] eqn:Hsub.
  - destruct (PyStr.to_int part); [|intros [= <-]; set_solver].
    destruct base_port; [done|intros [= <-]; set_solver].
  - apply subscript_list_raises in Hsub as ->. intros [= <-]. set_solver.
Qed.

Lemma calculate_streams_exceptions (self : sender) (e : exn) :
  calculate_streams self = Raise e →
  e ∈ [KeyError "channelCount"; KeyError "channelsPerReceiver";
       KeyError "baseMulticastAddress"; KeyError "rtpDestinationPort";
       TypeError; ZeroDivisionError; AttributeError; IndexError; ValueError].
Proof.
  unfold calculate_streams, subscript, mbind, result_bind.
  destruct (config self !! "channelCount") as [cc|]; [|intros [= <-]; set_solver].
  destruct (config self !! "channelsPerReceiver") as [cpr|]; [|intros [= <-]; set_solver].
  destruct (config self !! "baseMulticastAddress") as [base|]; [|intros [= <-]; set_solver].
  destruct (config self !! "rtpDestinationPort") as [port|]; [|intros [= <-]; set_solver].
  destruct cc as [cc|?], cpr as [cpr|?]; try (intros [= <-]; set_solver).
  destruct (cpr =? 0); [intros [= <-]; set_solver|].
  intros (i & _ & Hi%stream_at_raises)%for_each_raises.
  rewrite !elem_of_cons in Hi. rewrite !elem_of_cons.
  destruct Hi as [->|[->|[->|[->|Hi]]]]; [tauto..|].
  by apply elem_of_nil in Hi.
Qed.

(** C6, as stated, fails: with [channelCount = 0] and
    [channelsPerReceiver = 8] the result is the empty list, and with both
    equal to -8 it is a list of two streams; no exception is raised. *)
Lemma calculate_streams_accepts_nonpositive :
  calculate_streams (sender_of (sample_config 0 8 "239.1.1.0" 5004)) = Ok [] ∧
  calculate_streams (sender_of (sample_config (-8) (-8) "239.1.1.0" 5004))
  = Ok [ {| stream_index := 0; stream_multicast := "239.1.1.0"; stream_port := 5004;
            stream_channels := -8; stream_start_channel := 1 |};
         {| stream_index := 1; stream_multicast := "239.1.1.1"; stream_port := 5005;
            stream_channels := -8; stream_start_channel := -7 |} ].
Proof. split; vm_compute; reflexivity. Qed.

(** C6, amended.  [calculate_streams] checks neither count and raises no
    configuration error.  With integer counts it raises
    [ZeroDivisionError] exactly when [channelsPerReceiver = 0]; with
    [channelsPerReceiver > 0] and [channelCount <= 0] it returns the empty
    list; with [channelsPerReceiver < 0] it returns the empty list when
    [channelCount >= 2] and otherwise, the base address being well formed
    and the port an integer, a list that is not empty. *)
Theorem calculate_streams_without_validation
    (self : sender) (cc cpr : Z) (base port : value) :
  config self !! "channelCount" = Some (VInt cc) →
  config self !! "channelsPerReceiver" = Some (VInt cpr) →
  config self !! "baseMulticastAddress" = Some base →
  config self !! "rtpDestinationPort" = Some port →
  (calculate_streams self = Raise ZeroDivisionError ↔ cpr = 0) ∧
  (0 < cpr → cc ≤ 0 → calculate_streams self = Ok []) ∧
  (cpr < 0 → 2 ≤ cc → calculate_streams self = Ok []) ∧
  (cpr < 0 → cc ≤ 1 →
   ∀ address p part octet,
     base = VStr address → port = VInt p →
     PyStr.split PyStr.dot address !! 3%nat = Some part →
     PyStr.to_int part = Some octet →
     short_numbers (config self) = true →
     ∃ s streams, calculate_streams self = Ok (s :: streams)).
Proof.
  intros Hcc Hcpr Hbase Hport.
  assert (calculate_streams self =
          if cpr =? 0 then Raise ZeroDivisionError
          else for_each (stream_at cc cpr base port) (range ((cc + cpr - 1) `div` cpr)))
    as Hunfold.
  { unfold calculate_streams, subscript. by rewrite Hcc, Hcpr, Hbase, Hport. }
  assert (cpr ≠ 0 → (cc + cpr - 1) `div` cpr ≤ 0 → calculate_streams self = Ok [])
    as Hnone.
  { intros Hnz Hn. rewrite Hunfold.
    destruct (Z.eqb_spec cpr 0) as [?|_]; [done|].
    unfold range. by rewrite seqZ_nil. }
  split; [|split; [|split]].
  - rewrite Hunfold. destruct (Z.eqb_spec cpr 0) as [?|Hnz]; [done|].
    split; [|done].
    intros (i & _ & Hi%stream_at_raises)%for_each_raises.
    repeat (apply elem_of_cons in Hi as [[=]|Hi]). by apply elem_of_nil in Hi.
  - intros Hpos Hle. apply Hnone; [lia|].
    apply Z.lt_succ_r, Z.div_lt_upper_bound; lia.
  - intros Hneg Hge. apply Hnone; [lia|].
    pose proof (Z.div_mod (cc + cpr - 1) cpr ltac:(lia)).
    pose proof (Z.mod_neg_bound (cc + cpr - 1) cpr Hneg). nia.
  - intros Hneg Hle address p part octet -> -> Hpart Hoctet _.
    rewrite (calculate_streams_ok _ _ _ _ _ Hcc Hcpr Hbase Hport part octet)
      by (done || lia).
    assert (0 < (cc + cpr - 1) `div` cpr) as Hn.
    { pose proof (Z.div_mod (cc + cpr - 1) cpr ltac:(lia)).
      pose proof (Z.mod_neg_bound (cc + cpr - 1) cpr Hneg). nia. }
    unfold range. rewrite seqZ_cons by done. cbn. eauto.
Qed.

Lemma calculate_streams_without_validation_witness :
  let self := sender_of (sample_config (-8) (-8) "239.1.1.0" 5004) in
  (calculate_streams self = Raise ZeroDivisionError ↔ -8 = 0) ∧
  (0 < -8 → -8 ≤ 0 → calculate_streams self = Ok []) ∧
  (-8 < 0 → 2 ≤ -8 → calculate_streams self = Ok []) ∧
  (-8 < 0 → -8 ≤ 1 →
   ∀ address p part octet,
     VStr "239.1.1.0" = VStr address → VInt 5004 = VInt p →
     PyStr.split PyStr.dot address !! 3%nat = Some part →
     PyStr.to_int part = Some octet →
     short_numbers (config self) = true →
     ∃ s streams, calculate_streams self = Ok (s :: streams)).
Proof.
  apply (calculate_streams_without_validation _ (-8) (-8) (VStr "239.1.1.0") (VInt 5004));
    vm_compute; reflexivity.
Defined.

(** X5. On a configuration of integers and strings, [calculate_streams]
    never ends the process and raises nothing but a [KeyError] for one of
    its four keys, [TypeError], [ZeroDivisionError], [AttributeError],
    [IndexError] or [ValueError]. *)
Theorem calculate_streams_raises_only (self : sender) (e : exn) :
  calculate_streams self = Raise e →
  e ∈ [KeyError "channelCount"; KeyError "channelsPerReceiver";
       KeyError "baseMulticastAddress"; KeyError "rtpDestinationPort";
       TypeError; ZeroDivisionError; AttributeError; IndexError; ValueError].
Proof. apply calculate_streams_exceptions. Qed.

Lemma calculate_streams_raises_only_witness :
  ZeroDivisionError
  ∈ [KeyError "channelCount"; KeyError "channelsPerReceiver";
     KeyError "baseMulticastAddress"; KeyError "rtpDestinationPort";
     TypeError; ZeroDivisionError; AttributeError; IndexError; ValueError].
Proof.
  apply (calculate_streams_raises_only (sender_of (sample_config 16 0 "239.1.1.0" 5004))).
  vm_compute. reflexivity.
Defined.

(** ** The whole run of start *)

Lemma calculate_streams_never_exits self e code :
  calculate_streams self = Raise e → e ≠ SystemExit code.
Proof.
  intros He%calculate_streams_exceptions ->.
  repeat (apply elem_of_cons in He as [[=]|He]). by apply elem_of_nil in He.
Qed.

Lemma calculate_streams_config self1 self2 :
  config self1 = config self2 → calculate_streams self1 = calculate_streams self2.
Proof. intros Hcfg. unfold calculate_streams. by rewrite Hcfg. Qed.

Lemma exit_status_raise {A} e :
  (∀ code, e ≠ SystemExit code) →
  exit_status (Returns (Raise e) : outcome A) = Some 1.
Proof. intros He. destruct e; try done. by destruct (He code). Qed.

Lemma init_ptp_clock_cases E self :
  (∃ self0 t0, init_ptp_clock E self = (Returns (Ok false), self0, t0) ∧
               pipelines self0 = pipelines self ∧ lifecycle t0 = [PtpInit]) ∨
  (∃ c t0, init_ptp_clock E self
           = (Returns (Ok true), set_ptp_clock (Some c) self, t0) ∧
           lifecycle t0 = [PtpInit]).
Proof.
  unfold init_ptp_clock, mbind, M_bind, get, emit, modify. cbn.
  destruct (ptp_init E); cbn; [|left; by eexists _, _].
  destruct (ptp_clock_new E _) as [c|]; cbn; [|left; by eexists _, _].
  right. exists c. destruct (wait_for_sync E); by eexists.
Qed.

(** The loop at lines 213-221 keeps [self.pipelines] in step with the
    pipelines it has tried to start, and touches nothing else. *)
Lemma start_streams_cases E streams self :
  ∃ o self' t ps,
    for_ streams (start_stream E) self = (o, self', t) ∧
    self' = set_pipelines (pipelines self ++ ps) self ∧
    lifecycle t = started ps ∧
    ((o = Returns (Ok tt) ∧ length ps = length streams ∧
      Forall (λ q, set_state_playing E q ≠ FAILURE) ps) ∨
     (o ≠ Waits ∧ exit_status o = Some 1)).
Proof.
  revert self. induction streams as [|s streams IH]; intros self.
  - exists (Returns (Ok tt)), self, [], []. split; [done|].
    split; [destruct self; cbn; by rewrite app_nil_r|]. split; [done|]. by left.
  - cbn [for_]. rewrite bind_run.
    destruct (start_stream_run E s self)
      as [(e & t & -> & Hlife & Hexit)|[(p & t & -> & Hlife & Hp)|(p & t & -> & Hlife & Hp)]].
    + exists (Returns (Raise e)), self, t, []. split; [done|].
      split; [destruct self; cbn; by rewrite app_nil_r|]. split; [done|].
      right. split; [done|]. by apply exit_status_raise.
    + eexists _, _, t, [p]. split; [done|]. split; [done|]. split; [done|].
      right. by split.
    + destruct (IH (set_pipelines (pipelines self ++ [p]) self))
        as (o & self' & t' & ps & -> & -> & Hlife' & Hcases).
      eexists o, _, (t ++ t'), (p :: ps). split; [done|].
      split; [unfold set_pipelines; cbn; by rewrite <- app_assoc|].
      split; [by rewrite lifecycle_app, Hlife, Hlife'|].
      destruct Hcases as [(-> & Hlen & Hps)|Hfail]; [left|by right].
      split; [done|]. split; [cbn; by rewrite Hlen|by constructor].
Qed.

Lemma lifecycle_stop_trace self c running :
  ptp_clock self = Some c →
  main_loop self = Some {| is_running := running |} →
  lifecycle (stop_trace self)
  = stopped (pipelines self) ++ (if running then [MainLoopQuit] else []) ++ [PtpDeinit].
Proof.
  intros Hclock Hloop. unfold stop_trace. rewrite Hclock, Hloop, !lifecycle_app.
  f_equal; [|by destruct running].
  unfold stopped. induction (pipelines self) as [|p ps IH]; [done|].
  cbn [fmap list_fmap]. change (lifecycle (SetState p NULL :: ?l))
    with (SetState p NULL :: lifecycle l). by rewrite IH.
Qed.

Lemma lifecycle_stop_calls ps pre :
  Forall (λ c, c ∈ stop_calls ps) pre →
  Forall (λ c, c ∈ stop_calls ps) (lifecycle pre).
Proof.
  intros Hpre. apply Forall_forall. intros c Hc%lifecycle_elem_of.
  by apply (proj1 (Forall_forall _ _) Hpre).
Qed.

(** Every run of [start], by its outcome: it ends with status 1, nothing
    stopped; or every stream has its pipeline started and the sender waits
    in the run loop; or, from there, it has ended with status 0 at the end
    of a complete run of [stop]. *)
Lemma start_cases E self o self' t :
  start E self = (o, self', t) →
  ∃ ps,
    pipelines self' = pipelines self ++ ps ∧
    ((o ≠ Waits ∧ exit_status o = Some 1 ∧ lifecycle t = PtpInit :: started ps) ∨
     (∃ streams,
        calculate_streams self = Ok streams ∧
        length ps = length streams ∧
        Forall (λ q, set_state_playing E q ≠ FAILURE) ps ∧
        ((o = Waits ∧ lifecycle t = PtpInit :: started ps) ∨
         (o = Returns (Raise (SystemExit 0)) ∧
          ∃ pre quit,
            Forall (λ c, c ∈ stop_calls (pipelines self ++ ps)) pre ∧
            (quit = [] ∨ quit = [MainLoopQuit]) ∧
            lifecycle t
            = PtpInit :: started ps ++ pre ++ stopped (pipelines self ++ ps)
                ++ quit ++ [PtpDeinit])))).
Proof.
  intros Hstart. unfold start in Hstart.
  rewrite bind_run in Hstart.
  destruct (init_ptp_clock_cases E self)
    as [(self0 & t0 & Hinit & Hpipes & Hlife0)|(c & t0 & Hinit & Hlife0)];
    rewrite Hinit in Hstart; cbn [negb] in Hstart.
  { injection Hstart as <- <- <-. exists []. rewrite app_nil_r. split; [done|].
    left. split; [done|]. split; [done|]. by rewrite lifecycle_app, Hlife0. }
  set (self0 := set_ptp_clock (Some c) self) in *.
  rewrite bind_run in Hstart. cbn [get] in Hstart.
  rewrite bind_run in Hstart. cbn [lift] in Hstart.
  assert (calculate_streams self0 = calculate_streams self) as Hcalc
    by by apply calculate_streams_config.
  destruct (calculate_streams self0) as [streams|e] eqn:Hstreams.
  2:{ injection Hstart as <- <- <-. exists []. rewrite app_nil_r. split; [done|].
      left. split; [done|].
      split; [apply exit_status_raise; intros code;
              by apply (calculate_streams_never_exits self0)|].
      by rewrite !lifecycle_app, Hlife0. }
  rewrite bind_run in Hstart.
  destruct (start_streams_cases E streams self0)
    as (o1 & self1 & t1 & ps & Hloop & -> & Hlife1 & Hcases).
  rewrite Hloop in Hstart. exists ps.
  destruct Hcases as [(-> & Hlen & Hps)|[Hnowait Hstatus]].
  2:{ destruct o1 as [[[]|e]|]; [done| |done].
      injection Hstart as <- <- <-. split; [done|]. left.
      split; [done|]. split; [done|].
      rewrite !lifecycle_app, Hlife0, Hlife1. cbn. by rewrite ?app_nil_r. }
  rewrite after_loop_run in Hstart.
  destruct (config self0 !! "jackClientName") as [name|].
  2:{ injection Hstart as <- <- <-. split; [done|]. left.
      split; [done|]. split; [done|].
      rewrite !lifecycle_app, Hlife0, Hlife1. cbn. by rewrite ?app_nil_r. }
  set (self2 := set_main_loop (Some {| is_running := true |}) _) in Hstart.
  destruct (run_cases (triggers E) self2) as [Hwait|(pre & s1 & Hs1 & Hpre & Hstop)].
  - rewrite Hwait in Hstart. injection Hstart as <- <- <-. split; [done|].
    right. exists streams. split; [by rewrite <- Hcalc|]. split; [done|].
    split; [done|]. left. split; [done|].
    rewrite !lifecycle_app, Hlife0, Hlife1. cbn. by rewrite ?app_nil_r.
  - rewrite Hstop in Hstart. injection Hstart as <- <- <-.
    assert (pipelines s1 = pipelines self ++ ps) as Hpipes
      by (destruct Hs1 as [Heq|Heq]; by rewrite Heq).
    assert (ptp_clock s1 = Some c) as Hclock
      by (destruct Hs1 as [Heq|Heq]; by rewrite Heq).
    split; [by rewrite stop_state_pipelines|].
    right. exists streams. split; [by rewrite <- Hcalc|]. split; [done|].
    split; [done|]. right. split; [done|].
    assert (lifecycle (t0 ++ t1 ++ MainLoopNew :: SignalInstall SIGINT ::
                         SignalInstall SIGTERM :: MainLoopRun :: pre ++ stop_trace s1)
            = PtpInit :: started ps ++ lifecycle pre ++ lifecycle (stop_trace s1))
      as ->.
    { rewrite !lifecycle_app, Hlife0, Hlife1.
      change (lifecycle (MainLoopNew :: _ :: _ :: _ :: pre ++ stop_trace s1))
        with (lifecycle (pre ++ stop_trace s1)).
      by rewrite lifecycle_app. }
    exists (lifecycle pre).
    destruct Hs1 as [Heq|Heq].
    + exists [MainLoopQuit]. split; [by apply lifecycle_stop_calls|]. split; [by right|].
      rewrite (lifecycle_stop_trace s1 c true), Hpipes; [done..|by rewrite Heq].
    + exists []. split; [by apply lifecycle_stop_calls|]. split; [by left|].
      rewrite (lifecycle_stop_trace s1 c false), Hpipes; [done..|by rewrite Heq].
Qed.

Lemma load_config_raises E path e :
  load_config E path = Raise e →
  exit_status (Returns (Raise e) : outcome unit) = Some 1.
Proof.
  unfold load_config. destruct (read_config E path); try by intros [= <-].
  case_decide; [done|by intros [= <-]].
Qed.

(** [main] is [Gst.init], [load_config] and, if that returns, [start] on a
    sender object with no pipeline yet. *)
Lemma main_cases E path verbose :
  (∃ e, load_config E path = Raise e ∧ main E path verbose = (Some 1, [GstInit])) ∨
  (∃ d o self' t,
     load_config E path = Ok d ∧
     start E {| config_path := path; verbose := verbose; pipelines := [];
                main_loop := None; ptp_clock := None; config := d |}
     = (o, self', t) ∧
     main E path verbose = (exit_status o, GstInit :: t)).
Proof.
  unfold main, init. destruct (load_config E path) as [d|e] eqn:Hload; cbn.
  - right. destruct (start E _) as [[o self'] t] eqn:Hstart. by exists d, o, self', t.
  - left. exists e. split; [done|].
    pose proof (load_config_raises E path e Hload) as Hstatus.
    cbn in Hstatus. by rewrite Hstatus.
Qed.

(** X6. When [start] ends the process with status 0, a complete run of
    [stop] is the end of it, and every pipeline has been stopped there:
    the lifecycle calls are [ptp_init], the starts of the pipelines (none
    failing), calls of the runs of [stop] that a signal has interrupted,
    if any, then [set_state(NULL)] on the pipelines of the sender, in
    order, [quit] on the main loop unless it no longer runs, and
    [ptp_deinit], last. *)
Theorem exit_0_means_all_stopped
    (E : env) (self self' : sender) (t : list call) :
  start E self = (Returns (Raise (SystemExit 0)), self', t) →
  ∃ ps pre quit,
    Forall (λ q, set_state_playing E q ≠ FAILURE) ps ∧
    Forall (λ c, c ∈ stop_calls (pipelines self ++ ps)) pre ∧
    (quit = [] ∨ quit = [MainLoopQuit]) ∧
    lifecycle t
    = PtpInit :: started ps ++ pre ++ stopped (pipelines self ++ ps)
        ++ quit ++ [PtpDeinit].
Proof.
  intros Hstart.
  apply start_cases in Hstart
    as (ps & _ & [(_ & Hone & _)|(streams & _ & _ & Hps & Hcases)]); [done|].
  destruct Hcases as [[[=] _]|(_ & pre & quit & Hpre & Hquit & Hlife)].
  by exists ps, pre, quit.
Qed.

Lemma exit_0_means_all_stopped_witness :
  let config := sample_config 16 8 "239.1.1.0" 5004 in
  let E := sample_env (JsonObject config) true []
             [BusMessage 1 WARNING; Interrupted (Signal SIGTERM) 1 SIGINT;
              BusMessage 0 EOS] in
  ∃ ps pre quit,
    Forall (λ q, set_state_playing E q ≠ FAILURE) ps ∧
    Forall (λ c, c ∈ stop_calls (pipelines (sender_of config) ++ ps)) pre ∧
    (quit = [] ∨ quit = [MainLoopQuit]) ∧
    lifecycle (start E (sender_of config)).2
    = PtpInit :: started ps ++ pre ++ stopped (pipelines (sender_of config) ++ ps)
        ++ quit ++ [PtpDeinit].
Proof.
  cbv zeta. set (E := sample_env _ _ _ _). set (self := sender_of _).
  apply (exit_0_means_all_stopped E self (start E self).1.2).
  vm_compute. reflexivity.
Defined.

(** X7. A sender that is up, waiting in its run loop, has built and
    started one pipeline per stream of [calculate_streams], none of them
    failing, and has stopped nothing. *)
Theorem waiting_means_all_started
    (E : env) (path : string) (verbose : bool) (t : list call) :
  main E path verbose = (None, t) →
  ∃ d streams ps,
    load_config E path = Ok d ∧
    calculate_streams (sender_of d) = Ok streams ∧
    length ps = length streams ∧
    Forall (λ q, set_state_playing E q ≠ FAILURE) ps ∧
    lifecycle t = PtpInit :: started ps.
Proof.
  intros Hmain.
  destruct (main_cases E path verbose)
    as [(e & _ & Hfail)|(d & o & self' & t' & Hload & Hstart & Hrun)].
  { rewrite Hfail in Hmain. done. }
  rewrite Hrun in Hmain. injection Hmain as Hstatus <-.
  apply start_cases in Hstart
    as (ps & _ & [(Hnowait & Hone & _)|(streams & Hcalc & Hlen & Hps & Hcases)]).
  { rewrite Hone in Hstatus. done. }
  destruct Hcases as [[_ Hlife]|(-> & _)]; [|done].
  exists d, streams, ps. split; [done|].
  split; [by rewrite <- Hcalc; apply calculate_streams_config|]. done.
Qed.

Lemma waiting_means_all_started_witness :
  let E := sample_env (JsonObject (sample_config 16 8 "239.1.1.0" 5004)) false []
             [BusMessage 1 WARNING] in
  ∃ d streams ps,
    load_config E "aes67-config.json" = Ok d ∧
    calculate_streams (sender_of d) = Ok streams ∧
    length ps = length streams ∧
    Forall (λ q, set_state_playing E q ≠ FAILURE) ps ∧
    lifecycle (main E "aes67-config.json" false).2 = PtpInit :: started ps.
Proof.
  cbv zeta. set (E := sample_env _ _ _ _).
  apply (waiting_means_all_started E "aes67-config.json" false).
  vm_compute. reflexivity.
Defined.

(** X8. Every run of [start] that ends with a status other than 0 (PTP
    failure, an exception out of the stream calculation or of the building
    of a pipeline, a pipeline that fails to start, the client name missing
    at line 224) has cleaned up nothing: the lifecycle calls are
    [ptp_init] and the starts of the pipelines that [self.pipelines] has
    gained; no pipeline is set to NULL, the main loop is not quit and
    [ptp_deinit] is not called. *)
Theorem nonzero_exit_stops_nothing
    (E : env) (self self' : sender) (o : outcome unit) (t : list call) (code : Z) :
  start E self = (o, self', t) →
  exit_status o = Some code →
  code ≠ 0 →
  ∃ ps,
    pipelines self' = pipelines self ++ ps ∧
    lifecycle t = PtpInit :: started ps ∧
    (∀ q, SetState q NULL ∉ t) ∧ (MainLoopQuit ∉ t) ∧ (PtpDeinit ∉ t).
Proof.
  intros Hstart Hstatus Hcode.
  apply start_cases in Hstart
    as (ps & Hpipes & [(_ & _ & Hlife)|(streams & _ & _ & _ & Hcases)]).
  - exists ps. split; [done|]. split; [done|].
    assert (∀ c, is_stop_call c = true → c ∉ t) as Hnone.
    { intros c Hc Hin.
      assert (is_lifecycle c = true) as Hl by (by destruct c as [| | | | | | | | | | |? []| | | | | |]).
      apply (elem_of_lifecycle c _ Hl) in Hin. rewrite Hlife in Hin.
      apply elem_of_cons in Hin as [->|Hin]; [done|].
      by apply list_elem_of_fmap in Hin as (q & -> & _). }
    split; [intros q|split]; by apply Hnone.
  - destruct Hcases as [[-> _]|(-> & _)]; [done|].
    injection Hstatus as <-. done.
Qed.

Lemma nonzero_exit_stops_nothing_witness :
  let config := delete "jackClientName" (sample_config 0 8 "239.1.1.0" 5004) in
  let E := sample_env (JsonObject config) true [] [Signal SIGINT] in
  ∃ ps,
    pipelines (start E (sender_of config)).1.2 = pipelines (sender_of config) ++ ps ∧
    lifecycle (start E (sender_of config)).2 = PtpInit :: started ps ∧
    (∀ q, SetState q NULL ∉ (start E (sender_of config)).2) ∧
    (MainLoopQuit ∉ (start E (sender_of config)).2) ∧
    (PtpDeinit ∉ (start E (sender_of config)).2).
Proof.
  cbv zeta. set (E := sample_env _ _ _ _). set (self := sender_of _).
  apply (nonzero_exit_stops_nothing E self (start E self).1.2 (start E self).1.1 _ 1).
  - by destruct (start E self) as [[? ?] ?].
  - vm_compute. reflexivity.
  - lia.
Defined.

(** ** Bus messages, configuration file and PTP failures *)

(** X9. Warnings, state changes and other bus messages neither stop the
    sender nor make it call anything, even when the handler raises (a
    state change for a stream index with no pipeline): the run loop goes
    on with the next trigger as if they had not come, and with only such
    triggers it keeps waiting. *)
Theorem benign_messages_change_nothing
    (ms ts : list trigger) (self : sender) :
  Forall (λ m, benign m = true) ms →
  run (ms ++ ts) self = run ts self ∧
  run ms self = (Waits, self, []).
Proof.
  intros Hms. induction Hms as [|m ms Hm _ [IH1 IH2]]; [done|].
  destruct m as [sig|stream_index m| |t n sig]; [done| |done..].
  assert (∃ r, on_bus_message m stream_index self = (Returns r, self, []) ∧
               ∀ code, r ≠ Raise (SystemExit code)) as (r & Hr & Hne).
  { destruct m as [| | |src|]; try done.
    - by exists (Ok tt).
    - cbn. unfold mbind, M_bind, get, lift. cbn.
      destruct (subscript_list (pipelines self) stream_index) as [p|e] eqn:Hsub; cbn.
      + by exists (Ok tt).
      + apply subscript_list_raises in Hsub as ->. by exists (Raise IndexError).
    - by exists (Ok tt). }
  cbn [app run]. rewrite Hr.
  destruct r as [[]|[]]; try (by destruct (Hne code));
    rewrite IH1, IH2; split; try done; by destruct (run ts self) as [[? ?] ?].
Qed.

Lemma benign_messages_change_nothing_witness :
  let ms := [BusMessage 0 WARNING; BusMessage 5 (STATE_CHANGED 3%nat); BusMessage 1 OTHER] in
  run (ms ++ [Signal SIGINT]) running_sender = run [Signal SIGINT] running_sender ∧
  run ms running_sender = (Waits, running_sender, []).
Proof.
  apply benign_messages_change_nothing. repeat constructor.
Defined.

(** [load_config] returns a configuration exactly when the file holds
    a JSON object whose [deviceMode] is the string "sender", and what it
    returns is that object, unchanged. *)
Lemma load_config_accepts_only_sender
    (E : env) (path : string) (d : gmap string value) :
  load_config E path = Ok d ↔
  read_config E path = JsonObject d ∧ d !! "deviceMode" = Some (VStr "sender").
Proof.
  unfold load_config. split.
  - destruct (read_config E path) as [| |d'|]; try done.
    case_decide; [|done]. by intros [= ->].
  - intros [-> Hmode]. by case_decide.
Qed.

(** X10. When the configuration file is missing, is not JSON, or holds
    something that is not an object, the process ends with status 1 right
    after [Gst.init]: nothing of PTP or GStreamer pipelines is touched. *)
Theorem unusable_config_file_exits_1
    (E : env) (path : string) (verbose : bool) :
  (∀ d, read_config E path ≠ JsonObject d) →
  main E path verbose = (Some 1, [GstInit]).
Proof.
  intros Hfile. unfold main, init, load_config.
  destruct (read_config E path) as [| |d|]; try done. by destruct (Hfile d).
Qed.

Lemma unusable_config_file_exits_1_witness :
  main (sample_env FileNotFound true [] []) "missing.json" true = (Some 1, [GstInit]).
Proof.
  apply unusable_config_file_exits_1. intros d. vm_compute. discriminate.
Defined.

(** X11. When the PTP subsystem cannot be initialized, or no clock can be
    created for the configured domain (0 when [ptpDomain] is absent),
    [start] exits with status 1 before reading any stream key: no pipeline
    is built, whatever the rest of the configuration; and in the second
    case the PTP subsystem, initialized, is not released. *)
Theorem ptp_failure_builds_nothing (E : env) (self : sender) :
  let domain := default (VInt 0) (config self !! "ptpDomain") in
  ptp_init E = false ∨ ptp_clock_new E domain = None →
  ∃ self' t,
    start E self = (Returns (Raise (SystemExit 1)), self', t) ∧
    pipelines self' = pipelines self ∧
    (t = [PtpInit] ∨ t = [PtpInit; PtpClockNew domain]).
Proof.
  intros domain Hfail. unfold start, init_ptp_clock.
  unfold mbind, M_bind, get, emit, modify, sys_exit, raise. cbn. fold domain.
  destruct (ptp_init E); cbn.
  - destruct Hfail as [?|Hclock]; [done|]. rewrite Hclock. cbn.
    eexists _, _. split; [done|]. split; [done|]. by right.
  - eexists _, _. split; [done|]. split; [done|]. by left.
Qed.

Lemma ptp_failure_builds_nothing_witness :
  let E := {| read_config := λ _, JsonObject (sample_config 16 8 "239.1.1.0" 5004);
              ptp_init := false; ptp_clock_new := λ _, Some 7%nat;
              wait_for_sync := true; parse_launch := λ _, Some 0%nat;
              set_state_playing := λ _, SUCCESS; triggers := [] |} in
  let self := sender_of (sample_config 16 8 "239.1.1.0" 5004) in
  ∃ self' t,
    start E self = (Returns (Raise (SystemExit 1)), self', t) ∧
    pipelines self' = pipelines self ∧
    (t = [PtpInit] ∨ t = [PtpInit; PtpClockNew (default (VInt 0) (config self !! "ptpDomain"))]).
Proof.
  cbv zeta. apply ptp_failure_builds_nothing. by left.
Defined.

(** What [init_ptp_clock] returns and calls: never an exception, never a
    call on a pipeline or on the main loop. *)
Lemma init_ptp_clock_calls E self :
  ∃ b self0 t0,
    init_ptp_clock E self = (Returns (Ok b), self0, t0) ∧
    config self0 = config self ∧ pipelines self0 = pipelines self ∧
    (b = true → ∃ c, ptp_init E = true ∧
                     ptp_clock_new E (default (VInt 0) (config self !! "ptpDomain")) = Some c ∧
                     self0 = set_ptp_clock (Some c) self ∧
                     t0 = ptp_calls (default (VInt 0) (config self !! "ptpDomain")) c) ∧
    (∀ d, ParseLaunch d ∉ t0) ∧ (MainLoopRun ∉ t0) ∧ (PtpDeinit ∉ t0).
Proof.
  unfold init_ptp_clock, mbind, M_bind, get, emit, modify. cbn.
  assert (∀ t0 : list call,
            Forall (λ c0, match c0 with
                          | ParseLaunch _ | MainLoopRun | PtpDeinit => False
                          | _ => True
                          end) t0 →
            (∀ d, ParseLaunch d ∉ t0) ∧ (MainLoopRun ∉ t0) ∧ (PtpDeinit ∉ t0)) as Hcalls.
  { intros t0 Ht0. split; [intros d|split]; intros Hin;
      by apply (proj1 (Forall_forall _ _) Ht0) in Hin. }
  destruct (ptp_init E); cbn.
  2:{ eexists _, _, _. split; [done|]. split; [done|]. split; [done|]. split; [done|].
      apply Hcalls. by repeat constructor. }
  destruct (ptp_clock_new E _) as [c|] eqn:Hclock; cbn.
  2:{ eexists _, _, _. split; [done|]. split; [done|]. split; [done|]. split; [done|].
      apply Hcalls. by repeat constructor. }
  exists true, (set_ptp_clock (Some c) self), (ptp_calls (default (VInt 0) (config self !! "ptpDomain")) c).
  split; [by destruct (wait_for_sync E)|]. split; [done|]. split; [done|].
  split; [intros _; by exists c|]. apply Hcalls. by repeat constructor.
Qed.

(** X12. A configuration without [jackClientName] never gets a pipeline:
    every run of [start] on it ends the process, not with status 0, having
    made the calls of [init_ptp_clock] and no other; no description is
    handed to [Gst.parse_launch], the run loop is not entered and the PTP
    subsystem is not released.  The key is missed late: when the PTP
    subsystem and the clock are there and the streams are computed,
    [start] has initialized PTP and waited for the clock before it raises
    [KeyError], at line 135 for the first stream, at line 224 when there is
    no stream. *)
Theorem missing_client_name_is_found_late (E : env) (self : sender) :
  config self !! "jackClientName" = None →
  (∀ o self' t,
     start E self = (o, self', t) →
     o ≠ Waits ∧ exit_status o ≠ Some 0 ∧
     (∃ b, init_ptp_clock E self = (Returns (Ok b), self', t)) ∧
     (∀ d, ParseLaunch d ∉ t) ∧ (MainLoopRun ∉ t) ∧ (PtpDeinit ∉ t)) ∧
  (∀ c streams,
     ptp_init E = true →
     ptp_clock_new E (default (VInt 0) (config self !! "ptpDomain")) = Some c →
     calculate_streams self = Ok streams →
     short_numbers (config self) = true →
     start E self
     = (Returns (Raise (KeyError "jackClientName")), set_ptp_clock (Some c) self,
        ptp_calls (default (VInt 0) (config self !! "ptpDomain")) c)).
Proof.
  intros Hname.
  assert (∀ o self' t,
            start E self = (o, self', t) →
            ∃ b e, init_ptp_clock E self = (Returns (Ok b), self', t) ∧
                   o = Returns (Raise e) ∧
                   (e = SystemExit 1 ∨ ∀ code, e ≠ SystemExit code) ∧
                   (b = true → (∀ streams, calculate_streams self = Ok streams →
                                           e = KeyError "jackClientName"))) as Hruns.
  { intros o self' t. unfold start. rewrite bind_run.
    destruct (init_ptp_clock_calls E self)
      as (b & self0 & t0 & Hinit & Hconfig & _ & _ & _).
    rewrite Hinit. destruct b; cbn [negb].
    2:{ unfold sys_exit, raise. intros [= <- <- <-].
        exists false, (SystemExit 1). rewrite app_nil_r.
        split; [done|]. split; [done|]. split; [by left|done]. }
    rewrite bind_run. cbn [get]. rewrite bind_run. cbn [lift].
    rewrite (calculate_streams_config self0 self Hconfig).
    destruct (calculate_streams self) as [streams|e] eqn:Hcalc.
    2:{ intros [= <- <- <-]. exists true, e. rewrite app_nil_r.
        split; [done|]. split; [done|].
        split; [right; intros code; by eapply calculate_streams_never_exits|done]. }
    rewrite bind_run. destruct streams as [|s streams].
    - cbn [for_ mret M_ret]. rewrite after_loop_run, Hconfig, Hname.
      intros [= <- <- <-]. exists true, (KeyError "jackClientName").
      rewrite !app_nil_r. by auto.
    - cbn [for_]. rewrite bind_run. unfold start_stream. rewrite bind_run.
      unfold create_pipeline, subscript. rewrite bind_run. cbn [get].
      rewrite bind_run. cbn [lift]. rewrite Hconfig, Hname.
      intros [= <- <- <-]. exists true, (KeyError "jackClientName").
      rewrite !app_nil_r. by auto. }
  split.
  - intros o self' t Hstart.
    destruct (Hruns _ _ _ Hstart) as (b & e & Hinit & -> & He & _).
    split; [done|]. split.
    { destruct He as [->|He]; [done|]. by rewrite exit_status_raise. }
    split; [by exists b|].
    destruct (init_ptp_clock_calls E self) as (b' & self0 & t0 & Hinit' & _ & _ & _ & Hcalls).
    rewrite Hinit in Hinit'. by injection Hinit' as _ _ ->.
  - intros c streams Hptp Hclock Hcalc _.
    pose proof (Hruns (start E self).1.1 (start E self).1.2 (start E self).2) as Hrun.
    destruct (start E self) as [[o self'] t]. cbn in Hrun.
    destruct (Hrun eq_refl) as (b & e & Hinit & -> & _ & He).
    destruct (init_ptp_clock_calls E self) as (b' & self0 & t0 & Hinit' & _ & _ & Hb & _).
    rewrite Hinit in Hinit'. injection Hinit' as <- <- <-.
    destruct b.
    + destruct (Hb eq_refl) as (c' & _ & Hclock' & -> & ->).
      rewrite Hclock in Hclock'. injection Hclock' as <-.
      by rewrite (He eq_refl streams Hcalc).
    + unfold init_ptp_clock, mbind, M_bind, get, emit, modify in Hinit. cbn in Hinit.
      rewrite Hptp in Hinit. cbn in Hinit. rewrite Hclock in Hinit. cbn in Hinit.
      by destruct (wait_for_sync E).
Qed.

Lemma missing_client_name_is_found_late_witness :
  let config := delete "jackClientName" (sample_config 16 8 "239.1.1.0" 5004) in
  let E := sample_env (JsonObject config) true [] [] in
  let self := sender_of config in
  (∀ o self' t,
     start E self = (o, self', t) →
     o ≠ Waits ∧ exit_status o ≠ Some 0 ∧
     (∃ b, init_ptp_clock E self = (Returns (Ok b), self', t)) ∧
     (∀ d, ParseLaunch d ∉ t) ∧ (MainLoopRun ∉ t) ∧ (PtpDeinit ∉ t)) ∧
  (∀ c streams,
     ptp_init E = true →
     ptp_clock_new E (default (VInt 0) (config !! "ptpDomain")) = Some c →
     calculate_streams self = Ok streams →
     short_numbers config = true →
     start E self
     = (Returns (Raise (KeyError "jackClientName")), set_ptp_clock (Some c) self,
        ptp_calls (default (VInt 0) (config !! "ptpDomain")) c)).
Proof.
  cbv zeta. apply missing_client_name_is_found_late. vm_compute. reflexivity.
Defined.

(** ** Order of the calls *)

Lemma create_pipeline_ok E s self p self' t :
  create_pipeline E s self = (Returns (Ok p), self', t) →
  ∃ c, ptp_clock self = Some c ∧ UseClock p (Some c) ∈ t ∧ SetBaseTime p ∈ t.
Proof.
  unfold create_pipeline, subscript, mbind, M_bind, get, lift, emit, raise. cbn.
  destruct (config self !! "jackClientName") as [name|]; cbn; [|done].
  destruct (config self !! "samplingRate") as [rate|]; cbn; [|done].
  destruct (parse_launch E _) as [q|]; cbn; [|done].
  destruct (ptp_clock self) as [c|]; cbn; [|done].
  intros [= -> _ <-]. exists c. split; [done|].
  rewrite !elem_of_cons. auto 10.
Qed.

Lemma no_start_in_lifecycle_free t p :
  lifecycle t = [] → SetState p PLAYING ∉ t.
Proof.
  intros Hlife Hin. apply (elem_of_lifecycle (SetState p PLAYING) _ eq_refl) in Hin.
  rewrite Hlife in Hin. by apply elem_of_nil in Hin.
Qed.

Lemma last_start_split tc p0 t1 p t2 :
  (∀ q, SetState q PLAYING ∉ tc) →
  tc ++ [SetState p0 PLAYING] = t1 ++ SetState p PLAYING :: t2 →
  t1 = tc ∧ p = p0.
Proof.
  revert t1. induction tc as [|a tc IH]; intros t1 Hnone Heq.
  - destruct t1 as [|c t1]; cbn in Heq; [by injection Heq as <-|].
    injection Heq as _ Heq. by destruct t1.
  - destruct t1 as [|c t1]; cbn in Heq; injection Heq as Ha Heq.
    + destruct (Hnone p). rewrite Ha. apply list_elem_of_here.
    + destruct (IH t1) as [-> ->]; [|done|by subst].
      intros q Hq. apply (Hnone q). by apply list_elem_of_further.
Qed.

(** Within one turn of the loop, a pipeline is started only after it was
    given the clock of the sender and its base time. *)
Lemma start_stream_order E s self o self' t t1 p t2 :
  start_stream E s self = (o, self', t) →
  t = t1 ++ SetState p PLAYING :: t2 →
  ∃ c, ptp_clock self = Some c ∧ UseClock p (Some c) ∈ t1 ∧ SetBaseTime p ∈ t1.
Proof.
  unfold start_stream. rewrite bind_run.
  destruct (create_pipeline_run E s self) as (r & tc & Hcreate & Hlife & _).
  rewrite Hcreate. destruct r as [p0|e].
  - apply create_pipeline_ok in Hcreate as (c & Hclock & Huse & Hbase).
    unfold mbind, M_bind, modify, emit, sys_exit, raise. cbn.
    intros Hrun Hsplit.
    assert (t = tc ++ [SetState p0 PLAYING]) as ->
      by (destruct (set_state_playing E p0); by injection Hrun as _ _ <-).
    apply last_start_split in Hsplit as [-> ->];
      [|intros q; by apply no_start_in_lifecycle_free].
    by exists c.
  - intros [= _ _ <-] ->.
    destruct (no_start_in_lifecycle_free _ p Hlife).
    apply elem_of_app. right. apply list_elem_of_here.
Qed.

Lemma bind_run_inv {A B} (m : M A) (k : A → M B) self o self' t :
  (m ≫= k) self = (o, self', t) →
  ∃ o1 self1 ta tb,
    m self = (o1, self1, ta) ∧ t = ta ++ tb ∧
    (tb = [] ∨ ∃ a, o1 = Returns (Ok a) ∧ k a self1 = (o, self', tb)).
Proof.
  rewrite bind_run. destruct (m self) as [[[[a|e]|] self1] ta].
  - destruct (k a self1) as [[o2 self2] tb] eqn:Hk. intros [= <- <- <-].
    eexists _, _, ta, tb. split; [done|]. split; [done|]. right. by exists a.
  - intros [= <- <- <-]. eexists _, _, ta, []. rewrite app_nil_r. by auto.
  - intros [= <- <- <-]. eexists _, _, ta, []. rewrite app_nil_r. by auto.
Qed.

Lemma split_app_cases {A} (a b t1 : list A) x t2 :
  a ++ b = t1 ++ x :: t2 →
  (∃ k, a = t1 ++ x :: k) ∨ (∃ k, t1 = a ++ k ∧ b = k ++ x :: t2).
Proof.
  intros [(k & -> & Hk)|(k & -> & ->)]%app_eq_inv.
  - destruct k as [|y k]; cbn in Hk.
    + subst b. right. exists []. by rewrite !app_nil_r.
    + injection Hk as <- ->. left. by exists k.
  - right. by exists k.
Qed.

Lemma start_stream_clock E s self o self' t :
  start_stream E s self = (o, self', t) → ptp_clock self' = ptp_clock self.
Proof.
  destruct (start_stream_run E s self)
    as [(e & t' & -> & _)|[(p & t' & -> & _)|(p & t' & -> & _)]];
    by intros [= _ <- _].
Qed.

(** The loop starts a pipeline only after giving it the clock of the
    sender and its base time. *)
Lemma start_streams_order E streams self o self' t t1 p t2 :
  for_ streams (start_stream E) self = (o, self', t) →
  t = t1 ++ SetState p PLAYING :: t2 →
  ∃ c, ptp_clock self = Some c ∧ UseClock p (Some c) ∈ t1 ∧ SetBaseTime p ∈ t1.
Proof.
  revert self t t1. induction streams as [|s streams IH]; intros self t t1.
  - intros [= _ _ <-] Hsplit. by destruct t1.
  - cbn [for_].
    intros (o1 & self1 & ta & tb & Hs & -> & Hrest)%bind_run_inv Hsplit.
    apply split_app_cases in Hsplit as [(k & ->)|(k & -> & ->)].
    + by eapply start_stream_order.
    + destruct Hrest as [Hnil|(a & _ & Hloop)]; [by destruct k|].
      destruct (IH _ _ _ Hloop eq_refl) as (c & Hclock & Huse & Hbase).
      rewrite (start_stream_clock _ _ _ _ _ _ Hs) in Hclock.
      exists c. rewrite !elem_of_app. by auto.
Qed.

Lemma init_ptp_clock_synced E self b self0 t0 :
  init_ptp_clock E self = (Returns (Ok b), self0, t0) →
  b = true →
  ∃ c, ptp_clock self0 = Some c ∧ PtpInit ∈ t0 ∧ ClockWaitForSync c ∈ t0.
Proof.
  unfold init_ptp_clock, mbind, M_bind, get, emit, modify. cbn.
  destruct (ptp_init E); cbn; [|by intros [= <- _ _]].
  destruct (ptp_clock_new E _) as [c|]; cbn; [|by intros [= <- _ _]].
  intros Hrun _. exists c.
  assert (self0 = set_ptp_clock (Some c) self ∧
          t0 = [PtpInit; PtpClockNew (default (VInt 0) (config self !! "ptpDomain"));
                ClockConnectSynced c; ClockWaitForSync c]) as [-> ->]
    by (destruct (wait_for_sync E); by injection Hrun as _ <- <-).
  split; [done|]. rewrite !elem_of_cons. by auto 10.
Qed.

(** X13. In every run of [start], a pipeline is set to PLAYING only after
    [ptp_init], after the wait for the synchronization of the clock, and
    after that very clock and a base time were given to the pipeline. *)
Theorem pipelines_start_on_the_waited_clock
    (E : env) (self self' : sender) (o : outcome unit)
    (t t1 t2 : list call) (p : pipeline) :
  start E self = (o, self', t) →
  t = t1 ++ SetState p PLAYING :: t2 →
  ∃ c, PtpInit ∈ t1 ∧ ClockWaitForSync c ∈ t1 ∧
       UseClock p (Some c) ∈ t1 ∧ SetBaseTime p ∈ t1.
Proof.
  unfold start.
  intros (o1 & self0 & t0 & tb & Hinit & -> & Hrest)%bind_run_inv Hsplit.
  destruct (init_ptp_clock_run E self) as (b & self0' & t0' & Hinit' & Hlife0).
  rewrite Hinit in Hinit'. injection Hinit' as -> <- <-.
  apply split_app_cases in Hsplit as [(k & ->)|(k & -> & ->)].
  { apply (f_equal (λ l, SetState p PLAYING ∈ l)) in Hlife0.
    assert (SetState p PLAYING ∈ [PtpInit]) as Hin.
    { rewrite <- Hlife0. apply (elem_of_lifecycle (SetState p PLAYING) _ eq_refl).
      apply elem_of_app. right. apply list_elem_of_here. }
    apply list_elem_of_singleton in Hin. done. }
  destruct Hrest as [Hnil|(b' & [= <-] & Hrest)]; [by destruct k|].
  destruct b; cbn [negb] in Hrest; [|injection Hrest as _ _ Hnil; by destruct k].
  destruct (init_ptp_clock_synced _ _ _ _ _ Hinit eq_refl) as (c & Hclock & Hptp & Hwait).
  rewrite bind_run in Hrest. cbn [get] in Hrest.
  rewrite bind_run in Hrest. cbn [lift] in Hrest.
  destruct (calculate_streams self0) as [streams|e];
    [|injection Hrest as _ _ Hnil; by destruct k].
  set (tail := lift _ ≫= _) in Hrest.
  destruct ((for_ streams (start_stream E) ≫= (λ _, tail)) self0)
    as [[o2 self2] tc] eqn:Hloop.
  cbn [app] in Hrest. injection Hrest as _ _ ->.
  apply bind_run_inv in Hloop as (o3 & self3 & ta & tb & Hloop & Htc & Htail).
  exists c. rewrite !elem_of_app.
  symmetry in Htc. apply split_app_cases in Htc as [(k' & ->)|(k' & -> & ->)].
  - destruct (start_streams_order _ _ _ _ _ _ _ _ _ Hloop eq_refl)
      as (c' & Hclock' & Huse & Hbase).
    rewrite Hclock in Hclock'. injection Hclock' as <-. by auto 10.
  - destruct Htail as [Hnil|(a & _ & Htail)]; [by destruct k'|].
    destruct (after_loop_starts_nothing _ _ _ _ _ _ p Htail).
    apply elem_of_app. right. apply list_elem_of_here.
Qed.

Lemma pipelines_start_on_the_waited_clock_witness :
  let config := sample_config 16 8 "239.1.1.0" 5004 in
  let E := sample_env (JsonObject config) true [] [] in
  let t := (start E (sender_of config)).2 in
  ∃ c, PtpInit ∈ take 17 t ∧ ClockWaitForSync c ∈ take 17 t ∧
       UseClock 1%nat (Some c) ∈ take 17 t ∧ SetBaseTime 1%nat ∈ take 17 t.
Proof.
  cbv zeta.
  set (E := sample_env _ _ _ _). set (self := sender_of _).
  apply (pipelines_start_on_the_waited_clock E self
           (start E self).1.2 (start E self).1.1
           (start E self).2 (take 17 (start E self).2) (drop 18 (start E self).2)
           1%nat);
    vm_compute; reflexivity.
Defined.

(** ** A timeout of the synchronization *)

Lemma start_stream_wait_for_sync b E s :
  start_stream (with_wait_for_sync b E) s = start_stream E s.
Proof. reflexivity. Qed.

Lemma init_ptp_clock_wait_for_sync b E self :
  init_ptp_clock (with_wait_for_sync b E) self
  = init_ptp_clock (with_wait_for_sync true E) self.
Proof.
  unfold init_ptp_clock, mbind, M_bind, get, emit, modify. cbn.
  destruct (ptp_init E); cbn; [|done].
  destruct (ptp_clock_new E _); cbn; [|done]. by destruct b.
Qed.

Lemma start_wait_for_sync b E self :
  start (with_wait_for_sync b E) self = start (with_wait_for_sync true E) self.
Proof.
  unfold start, mbind at 1 3, M_bind at 1 3.
  by rewrite init_ptp_clock_wait_for_sync.
Qed.

Lemma with_wait_for_sync_id E : with_wait_for_sync (wait_for_sync E) E = E.
Proof. by destruct E. Qed.

(** One turn of the loop at lines 213-221 when the pipeline is built and
    started. *)
Lemma start_stream_started E s self c name rate p :
  ptp_clock self = Some c →
  config self !! "jackClientName" = Some name →
  config self !! "samplingRate" = Some rate →
  parse_launch E (pipeline_str name rate s) = Some p →
  set_state_playing E p ≠ FAILURE →
  start_stream E s self
  = (Returns (Ok tt), set_pipelines (pipelines self ++ [p]) self,
     start_calls c name rate s p).
Proof.
  intros Hclock Hname Hrate Hparse Hp.
  unfold start_stream, create_pipeline, subscript.
  unfold mbind, M_bind, get, lift, emit, modify, raise, sys_exit. cbn.
  rewrite Hname, Hrate. cbn. rewrite Hparse, Hclock. cbn.
  by destruct (set_state_playing E p).
Qed.

Lemma start_streams_started E streams ps self c name rate :
  ptp_clock self = Some c →
  config self !! "jackClientName" = Some name →
  config self !! "samplingRate" = Some rate →
  Forall2 (λ s p, parse_launch E (pipeline_str name rate s) = Some p) streams ps →
  Forall (λ p, set_state_playing E p ≠ FAILURE) ps →
  for_ streams (start_stream E) self
  = (Returns (Ok tt), set_pipelines (pipelines self ++ ps) self,
     concat (zip_with (start_calls c name rate) streams ps)).
Proof.
  intros Hclock Hname Hrate Hparse. revert self Hclock Hname Hrate.
  induction Hparse as [|s p streams ps Hp _ IH]; intros self Hclock Hname Hrate Hps.
  - cbn. rewrite app_nil_r. by destruct self.
  - apply Forall_cons in Hps as [Hok Hps].
    cbn [for_]. rewrite bind_run.
    rewrite (start_stream_started E s self c name rate p) by done.
    rewrite IH by done. cbn [zip_with concat].
    unfold set_pipelines. cbn. by rewrite <- app_assoc.
Qed.

(** C7. When [wait_for_sync] times out (returns False), [init_ptp_clock]
    still returns True once the PTP subsystem and the clock exist, and
    [start], hence the whole process, goes on exactly as it does when the
    clock synchronizes: the same calls are made in the same order, with
    the same outcome.  And it does go on: when the streams are computed,
    [jackClientName] and [samplingRate] are there, every description is
    accepted by [Gst.parse_launch] and no pipeline fails to start, [start]
    makes the four PTP calls, then for every stream in turn builds its
    pipeline on the clock and sets it to PLAYING, then enters the run
    loop. *)
Theorem sync_timeout_is_not_fatal
    (E : env) (self : sender) (c : clock) (path : string) (verbose : bool) :
  wait_for_sync E = false →
  ptp_init E = true →
  ptp_clock_new E (default (VInt 0) (config self !! "ptpDomain")) = Some c →
  init_ptp_clock E self
  = (Returns (Ok true), set_ptp_clock (Some c) self,
     [PtpInit; PtpClockNew (default (VInt 0) (config self !! "ptpDomain"));
      ClockConnectSynced c; ClockWaitForSync c]) ∧
  start E self = start (with_wait_for_sync true E) self ∧
  main E path verbose = main (with_wait_for_sync true E) path verbose ∧
  (∀ name rate streams ps,
     calculate_streams self = Ok streams →
     config self !! "jackClientName" = Some name →
     config self !! "samplingRate" = Some rate →
     Forall2 (λ s p, parse_launch E (pipeline_str name rate s) = Some p) streams ps →
     Forall (λ p, set_state_playing E p ≠ FAILURE) ps →
     short_numbers (config self) = true →
     ∃ o self' t,
       run (triggers E)
           (set_main_loop (Some {| is_running := true |})
              (set_pipelines (pipelines self ++ ps) (set_ptp_clock (Some c) self)))
       = (o, self', t) ∧
       start E self
       = (o, self',
          ptp_calls (default (VInt 0) (config self !! "ptpDomain")) c ++
          concat (zip_with (start_calls c name rate) streams ps) ++
          run_loop_calls ++ t)).
Proof.
  intros Hsync Hinit Hclock.
  assert (init_ptp_clock E self
          = (Returns (Ok true), set_ptp_clock (Some c) self,
             ptp_calls (default (VInt 0) (config self !! "ptpDomain")) c)) as Hptp.
  { unfold init_ptp_clock, mbind, M_bind, get, emit, modify. cbn.
    rewrite Hinit. cbn. rewrite Hclock. cbn. by rewrite Hsync. }
  split; [done|]. split; [|split].
  - rewrite <- (with_wait_for_sync_id E) at 1. apply start_wait_for_sync.
  - unfold main. change (init (with_wait_for_sync true E)) with (init E).
    destruct (init E path verbose) as [[sender|e] t]; [|done].
    rewrite <- (with_wait_for_sync_id E) at 1.
    by rewrite (start_wait_for_sync (wait_for_sync E)).
  - intros name rate streams ps Hcalc Hname Hrate Hparse Hps _.
    set (self0 := set_ptp_clock (Some c) self).
    destruct (run (triggers E)
                (set_main_loop (Some {| is_running := true |})
                   (set_pipelines (pipelines self ++ ps) self0)))
      as [[o self'] t] eqn:Hrun.
    exists o, self', t. split; [done|].
    unfold start. rewrite bind_run, Hptp. cbn [negb]. fold self0.
    rewrite bind_run. cbn [get]. rewrite bind_run. cbn [lift].
    rewrite (calculate_streams_config self0 self eq_refl), Hcalc.
    rewrite bind_run.
    rewrite (start_streams_started E streams ps self0 c name rate) by done.
    rewrite after_loop_run.
    change (config self0 !! "jackClientName") with (config self !! "jackClientName").
    rewrite Hname.
    change (pipelines self0) with (pipelines self). by rewrite Hrun.
Qed.

Lemma sync_timeout_is_not_fatal_witness :
  let config := sample_config 16 8 "239.1.1.0" 5004 in
  let E := sample_env (JsonObject config) false [] [] in
  let self := sender_of config in
  let streams := stream_for 16 8 "239.1.1.0" 0 5004 <$> range 2 in
  (start E self = start (with_wait_for_sync true E) self ∧
   main E "aes67-config.json" false
   = main (with_wait_for_sync true E) "aes67-config.json" false) ∧
  ∃ o self' t,
    run (triggers E)
        (set_main_loop (Some {| is_running := true |})
           (set_pipelines (pipelines self ++ [0; 1]%nat)
              (set_ptp_clock (Some 7%nat) self)))
    = (o, self', t) ∧
    start E self
    = (o, self',
       ptp_calls (default (VInt 0) (config !! "ptpDomain")) 7%nat ++
       concat (zip_with (start_calls 7%nat (VStr "aes67") (VInt 48000)) streams
                 [0; 1]%nat) ++
       run_loop_calls ++ t).
Proof.
  cbv zeta.
  set (E := sample_env _ _ _ _). set (self := sender_of _).
  destruct (sync_timeout_is_not_fatal E self 7%nat "aes67-config.json" false)
    as (_ & Hstart & Hmain & Hgoes); [reflexivity..|].
  split; [done|].
  apply Hgoes; try (vm_compute; reflexivity).
  - repeat constructor.
  - repeat constructor; vm_compute; discriminate.
Defined.

(** After a timeout both pipelines of the sample configuration are built
    and started, and the run loop is entered. *)
Example start_after_sync_timeout :
  let r := main (sample_env (JsonObject (sample_config 16 8 "239.1.1.0" 5004)) false [] [])
                "aes67-config.json" false in
  r.1 = None ∧
  lifecycle r.2 = [PtpInit; SetState 0%nat PLAYING; SetState 1%nat PLAYING] ∧
  last r.2 = Some MainLoopRun.
Proof. repeat split; vm_compute; reflexivity. Qed.

